(** * Primarch tool adapter: a shallow embedding of [agents/tool_adapter.py]

    The development follows the Python module top to bottom: the status
    enumeration, the two dataclasses, the registry as a dictionary of tool
    specifications, the synchronous checks ([validate_tool_input],
    [check_permissions]), the asynchronous pipeline ([execute_tool]) written
    in a small state-and-exception monad, and the listing
    ([get_available_tools]).  The theorems come after the definitions. *)

From Stdlib Require Import ZArith String Ascii List Lia.
From stdpp Require Import base option list gmap strings fin_maps pretty.

Set Warnings "-register-all".

Local Open Scope string_scope.
Local Open Scope Z_scope.

(** ** Python values

    Only the shapes the module builds or reads: payload dictionaries are kept
    as association lists in literal order, a float literal such as [0.95] is
    kept as its decimal digits and a power of ten ([PyFloat 95 (-2)]). *)

Inductive pyvalue : Type :=
| PyNone
| PyInt (z : Z)
| PyFloat (digits : Z) (exp10 : Z)
| PyStr (s : string)
| PyList (items : list pyvalue)
| PyDict (items : list (string * pyvalue)).

(** ** [ToolExecutionStatus] *)

Inductive ToolExecutionStatus : Type :=
| SUCCESS
| FAILURE
| TIMEOUT
| VALIDATION_ERROR
| PERMISSION_DENIED.

(** The [.value] of an enumeration member. *)
Definition status_value (s : ToolExecutionStatus) : string :=
  match s with
  | SUCCESS => "success"
  | FAILURE => "failure"
  | TIMEOUT => "timeout"
  | VALIDATION_ERROR => "validation_error"
  | PERMISSION_DENIED => "permission_denied"
  end.

#[global] Instance ToolExecutionStatus_eq_dec : EqDecision ToolExecutionStatus.
Proof. solve_decision. Defined.

(** ** [ToolContext] and [ToolResult] *)

Record ToolContext : Type := mkToolContext {
  tenant_id : string;
  session_id : string;
  user_id : option string;
  agent_id : option string;
  permission_level : string;
  max_execution_time : Z;          (* seconds *)
  metadata : gmap string pyvalue
}.

(** The dataclass constructor with its defaults: only the tenant and the
    session are mandatory. *)
Definition ToolContext_default (tenant session : string) : ToolContext :=
  {| tenant_id := tenant; session_id := session;
     user_id := None; agent_id := None;
     permission_level := "user"; max_execution_time := 30;
     metadata := ∅ |}.

Definition with_permission_level (level : string) (c : ToolContext) : ToolContext :=
  {| tenant_id := tenant_id c; session_id := session_id c;
     user_id := user_id c; agent_id := agent_id c;
     permission_level := level; max_execution_time := max_execution_time c;
     metadata := metadata c |}.

(** [result_metadata] is the [metadata] field of [ToolResult] (the name is
    taken by [ToolContext]). *)
Record ToolResult : Type := mkToolResult {
  status : ToolExecutionStatus;
  data : option pyvalue;
  error : option string;
  execution_time_ms : Z;
  token_usage : list (string * Z);
  result_metadata : list (string * pyvalue)
}.

(** [ToolResult(status=..., error=..., execution_time_ms=...)]: the shape
    built on every path but the successful one. *)
Definition error_result (st : ToolExecutionStatus) (msg : string) (ms : Z) : ToolResult :=
  {| status := st; data := None; error := Some msg; execution_time_ms := ms;
     token_usage := []; result_metadata := [] |}.

(** ** The registry

    [tool_registry] is the dictionary read from the YAML file: tool name to
    a mapping whose keys are all optional, every read going through
    [.get(key, default)].  A field is [None] when the key is absent. *)

Record ToolSpec : Type := mkToolSpec {
  spec_required_params : option (list string);
  spec_required_permission : option string;
  spec_type : option string;
  spec_description : option string;
  spec_parameters : option pyvalue
}.

Section Checks.
Variable tool_registry : gmap string ToolSpec.

(** The [for param in required_params] loop of [validate_tool_input]:
    it stops at the first parameter that is not a key of [inputs]. *)
Fixpoint validate_required (inputs : gmap string pyvalue) (required_params : list string)
  : bool * option string :=
  match required_params with
  | [] => (true, None)
  | param :: rest =>
      match inputs !! param with
      | None => (false, Some ("Missing required parameter: " +:+ param))
      | Some _ => validate_required inputs rest
      end
  end.

Definition validate_tool_input (tool_name : string) (inputs : gmap string pyvalue)
  : bool * option string :=
  match tool_registry !! tool_name with
  | None => (false, Some ("Tool '" +:+ tool_name +:+ "' not found in registry"))
  | Some tool_spec =>
      let required_params := default [] (spec_required_params tool_spec) in
      validate_required inputs required_params
  end.

(** [permission_levels = {'guest': 0, 'user': 1, 'admin': 2}] *)
Definition permission_levels : gmap string Z :=
  <["guest" := 0]> (<["user" := 1]> (<["admin" := 2]> ∅)).

Definition check_permissions (tool_name : string) (context : ToolContext) : bool :=
  match tool_registry !! tool_name with
  | None => false
  | Some tool_spec =>
      let required_permission := default "user" (spec_required_permission tool_spec) in
      Z.leb (default 1 (permission_levels !! required_permission))
            (default 0 (permission_levels !! permission_level context))
  end.
End Checks.

(** ** Exceptions, the metrics sink and the clock

    The classes of [Exception] the module tells apart: [except
    asyncio.TimeoutError] takes the first, [except Exception] every other
    one.  [exn_str] is [str(e)].  An [exn] always derives from [Exception];
    the exceptions that derive from [BaseException] only, which no clause of
    the module catches, come with the module [Full] below. *)

Inductive exn_class : Type :=
| TimeoutError
| NotImplementedError
| KeyError
| OtherException.

#[global] Instance exn_class_eq_dec : EqDecision exn_class.
Proof. solve_decision. Defined.

Record exn : Type := mkExn { exn_cls : exn_class; exn_str : string }.

(** What happens during a call, in order: the label-and-update calls on the
    three Prometheus metrics, and a mark for each of the three method calls
    [execute_tool] makes on [self] ([call_execute_tool_impl] marks the call
    that builds the coroutine handed to [asyncio.wait_for]). *)
Inductive event : Type :=
| active_tools_inc (tool_name tenant : string)
| active_tools_dec (tool_name tenant : string)
| tool_execution_counter_inc (tool_name status_label tenant : string)
| tool_execution_duration_observe (tool_name tenant : string) (ms : Z)
    (* the observed value is [ms / 1000.0] seconds *)
| call_validate_tool_input (tool_name : string)
| call_check_permissions (tool_name : string)
| call_execute_tool_impl (tool_name : string).

#[global] Instance event_eq_dec : EqDecision event.
Proof. solve_decision. Defined.

(** [now] is the reading of [time.time()] in whole milliseconds; it moves
    only while a coroutine sleeps.  [log] is chronological. *)
Record World : Type := mkWorld { now : Z; log : list event }.

Inductive outcome (A : Type) : Type :=
| Value (a : A)
| Raise (e : exn).
Arguments Value {A} a.
Arguments Raise {A} e.

Definition M (A : Type) : Type := World -> outcome A * World.

Definition ret {A} (a : A) : M A := fun w => (Value a, w).
Definition raise {A} (e : exn) : M A := fun w => (Raise e, w).
Definition bind {A B} (m : M A) (k : A -> M B) : M B :=
  fun w => match m w with
           | (Value a, w') => k a w'
           | (Raise e, w') => (Raise e, w')
           end.

Notation "x <- c ;; k" := (bind c (fun x => k))
  (at level 100, c at next level, right associativity).
Notation "c ;;; k" := (bind c (fun _ => k))
  (at level 100, right associativity).

(** [try: m except e: h e] *)
Definition try_except {A} (m : M A) (h : exn -> M A) : M A :=
  fun w => match m w with
           | (Value a, w') => (Value a, w')
           | (Raise e, w') => h e w'
           end.

(** [try: m finally: fin]: [fin] runs whether [m] returned or raised, and
    the outcome of [m] goes on unless [fin] itself raises. *)
Definition try_finally {A} (m : M A) (fin : M unit) : M A :=
  fun w => match m w with
           | (o, w') =>
               match fin w' with
               | (Value _, w'') => (o, w'')
               | (Raise e, w'') => (Raise e, w'')
               end
           end.

Definition emit (e : event) : M unit :=
  fun w => (Value tt, {| now := now w; log := log w ++ [e] |}).
Definition time_time : M Z := fun w => (Value (now w), w).
Definition advance (ms : Z) : M unit :=
  fun w => (Value tt, {| now := now w + ms; log := log w |}).

(** ** Coroutines and [asyncio.wait_for]

    A coroutine of this module sleeps a fixed time any number of times and
    then returns or raises. *)
Inductive coroutine : Type :=
| CoReturn (v : pyvalue)
| CoRaise (e : exn)
| CoSleep (ms : Z) (k : coroutine).

(** The coroutine runs until it finishes or [budget] milliseconds are used
    up; a sleep that would end at the deadline or later loses to the timer,
    which was armed first. *)
Fixpoint run_until (c : coroutine) (budget : Z) : M pyvalue :=
  match c with
  | CoReturn v => ret v
  | CoRaise e => raise e
  | CoSleep ms k =>
      if ms <? budget
      then advance (Z.max 0 ms) ;;; run_until k (budget - Z.max 0 ms)
      else advance budget ;;; raise (mkExn TimeoutError "")
  end.

(** [asyncio.wait_for(c, timeout)], [timeout] in seconds.  With
    [timeout <= 0] the library cancels an awaitable that is not already done,
    so a fresh coroutine never runs and [TimeoutError] is raised at once.
    This is the function for timeouts that the float clock of the loop can
    take; [Full.wait_for] below has the [OverflowError] of the others. *)
Definition wait_for (c : coroutine) (timeout : Z) : M pyvalue :=
  if timeout <=? 0 then raise (mkExn TimeoutError "")
  else run_until c (timeout * 1000).

(** ** [repr] of a string

    [str(KeyError(name))] is [repr(name)].  The quote is the single quote
    unless the text has a single quote and no double quote; the backslash,
    the chosen quote and the control characters are escaped.  Characters
    outside ASCII are taken to be printable and are kept as they are. *)

Definition single_quote : ascii := ascii_of_nat 39.
Definition double_quote : ascii := ascii_of_nat 34.
Definition backslash : ascii := ascii_of_nat 92.

Fixpoint string_mem (c : ascii) (s : string) : bool :=
  match s with
  | EmptyString => false
  | String c' rest => Ascii.eqb c c' || string_mem c rest
  end.

Definition hex_digit (n : nat) : ascii :=
  ascii_of_nat (if Nat.ltb n 10 then 48 + n else 87 + n).

Definition repr_char (quote c : ascii) : string :=
  let n := nat_of_ascii c in
  if Ascii.eqb c quote || Ascii.eqb c backslash then
    String backslash (String c EmptyString)
  else if Nat.eqb n 9 then String backslash "t"
  else if Nat.eqb n 10 then String backslash "n"
  else if Nat.eqb n 13 then String backslash "r"
  else if Nat.ltb n 32 || Nat.eqb n 127 then
    String backslash
      (String "x" (String (hex_digit (Nat.div n 16))
                     (String (hex_digit (Nat.modulo n 16)) EmptyString)))
  else String c EmptyString.

Fixpoint repr_body (quote : ascii) (s : string) : string :=
  match s with
  | EmptyString => EmptyString
  | String c rest => repr_char quote c +:+ repr_body quote rest
  end.

Definition py_repr (s : string) : string :=
  let quote :=
    if string_mem single_quote s && negb (string_mem double_quote s)
    then double_quote else single_quote in
  String quote (repr_body quote s +:+ String quote EmptyString).

(** ** [_execute_tool_impl] *)

Definition _execute_tool_impl (tool_registry : gmap string ToolSpec)
    (tool_name : string) (inputs : gmap string pyvalue) (context : ToolContext)
  : coroutine :=
  match tool_registry !! tool_name with
  | None => CoRaise (mkExn KeyError (py_repr tool_name))
  | Some tool_spec =>
      let tool_type := default "unknown" (spec_type tool_spec) in
      if decide (tool_type = "web_search") then
        CoSleep 500
          (CoReturn (PyDict
             [("query", default (PyStr "") (inputs !! "query"));
              ("results", PyList
                 [PyDict [("title", PyStr "Example Result");
                          ("url", PyStr "https://example.com");
                          ("snippet", PyStr "Sample snippet")]])]))
      else if decide (tool_type = "asr") then
        CoSleep 1000
          (CoReturn (PyDict
             [("transcript", PyStr "Sample transcribed text");
              ("confidence", PyFloat 95 (-2));
              ("language", PyStr "en")]))
      else if decide (tool_type = "tts") then
        CoSleep 800
          (CoReturn (PyDict
             [("audio_url", PyStr "/tmp/generated_audio.wav");
              ("duration_ms", PyInt 2000);
              ("format", PyStr "wav")]))
      else if decide (tool_type = "echo") then
        CoReturn (PyDict
          [("echo", default (PyStr "Hello from Primarch!") (inputs !! "message"))])
      else
        CoRaise (mkExn NotImplementedError
                   ("Tool type '" +:+ tool_type +:+ "' not implemented"))
  end.

(** ** [_record_execution] *)

Definition _record_execution (tool_name : string) (context : ToolContext)
    (result : ToolResult) : M unit :=
  emit (tool_execution_counter_inc tool_name (status_value (status result))
          (tenant_id context)) ;;;
  emit (tool_execution_duration_observe tool_name (tenant_id context)
          (execution_time_ms result)).

(** ** [execute_tool]

    How control leaves the outer [try] block when nothing is raised: by one
    of the two [return result] statements inside it, or by reaching its end
    with [result] bound, in which case the statements after [finally] run. *)
Inductive try_exit : Type :=
| Returned (result : ToolResult)
| FellThrough (result : ToolResult).

Section Gateway.
(** [self._execute_tool_impl]: the method starts with the comment that it
    would be replaced with the actual tool execution logic, so the pipeline
    is written over any execution capability; [execute_tool] below is the
    pipeline over the method of the module.

    This is the pipeline on the exits that end in a result: the tool raises
    exceptions that derive from [Exception], and [max_execution_time] has a
    text and, when positive, a float.  [Full.execute_tool_with] below is the
    pipeline with every exit; the two agree where this one applies
    ([pipelines_agree]). *)
Variable impl :
  gmap string ToolSpec -> string -> gmap string pyvalue -> ToolContext -> coroutine.
Variable tool_registry : gmap string ToolSpec.

Definition dispatch (tool_name : string) (inputs : gmap string pyvalue)
    (context : ToolContext) (start_time : Z) : M ToolResult :=
  try_except
    (emit (call_execute_tool_impl tool_name) ;;;
     data <- wait_for (impl tool_registry tool_name inputs context)
                      (max_execution_time context) ;;
     t <- time_time ;;
     ret {| status := SUCCESS; data := Some data; error := None;
            execution_time_ms := t - start_time;
            token_usage := [];
            result_metadata := [("tool_name", PyStr tool_name);
                                ("session_id", PyStr (session_id context))] |})
    (fun e =>
       if decide (exn_cls e = TimeoutError) then
         t <- time_time ;;
         ret (error_result TIMEOUT
                ("Tool execution timed out after "
                   +:+ pretty (max_execution_time context) +:+ "s")
                (t - start_time))
       else
         t <- time_time ;;
         ret (error_result FAILURE (exn_str e) (t - start_time))).

Definition execute_tool_with (tool_name : string) (inputs : gmap string pyvalue)
    (context : ToolContext) : M ToolResult :=
  start_time <- time_time ;;
  emit (active_tools_inc tool_name (tenant_id context)) ;;;
  exit <- try_finally
    (emit (call_validate_tool_input tool_name) ;;;
     let '(is_valid, validation_error) :=
       validate_tool_input tool_registry tool_name inputs in
     if negb is_valid then
       t <- time_time ;;
       let result :=
         {| status := VALIDATION_ERROR; data := None; error := validation_error;
            execution_time_ms := t - start_time;
            token_usage := []; result_metadata := [] |} in
       _record_execution tool_name context result ;;;
       ret (Returned result)
     else
       emit (call_check_permissions tool_name) ;;;
       if negb (check_permissions tool_registry tool_name context) then
         t <- time_time ;;
         let result :=
           error_result PERMISSION_DENIED
             ("Insufficient permissions for tool '" +:+ tool_name +:+ "'")
             (t - start_time) in
         _record_execution tool_name context result ;;;
         ret (Returned result)
       else
         result <- dispatch tool_name inputs context start_time ;;
         ret (FellThrough result))
    (emit (active_tools_dec tool_name (tenant_id context))) ;;
  match exit with
  | Returned result => ret result
  | FellThrough result =>
      _record_execution tool_name context result ;;;
      ret result
  end.
End Gateway.

Definition execute_tool := execute_tool_with _execute_tool_impl.

(** ** [get_available_tools]

    The entries of the listing are dictionaries with the four keys below.
    The registry is walked in the order of [map_to_list], which is fixed by
    the registry but is not Python's insertion order. *)
Record ToolSummary : Type := mkToolSummary {
  name : string;
  description : string;
  parameters : pyvalue;
  type_ : string
}.

Definition tool_summary (tool_name : string) (tool_spec : ToolSpec) : ToolSummary :=
  {| name := tool_name;
     description := default "" (spec_description tool_spec);
     parameters := default (PyDict []) (spec_parameters tool_spec);
     type_ := default "unknown" (spec_type tool_spec) |}.

Definition get_available_tools (tool_registry : gmap string ToolSpec)
    (context : ToolContext) : list ToolSummary :=
  flat_map
    (fun item : string * ToolSpec =>
       if check_permissions tool_registry item.1 context
       then [tool_summary item.1 item.2]
       else [])
    (map_to_list tool_registry).

(** ** Reading a run *)

(** The events a computation added to the log. *)
Definition new_events (before after : World) : list event :=
  drop (length (log before)) (log after).

Definition count_events (P : event -> bool) (l : list event) : nat :=
  length (List.filter P l).

(** What a run handed back to its caller, if it did not raise. *)
Definition returned {A} (run : outcome A * World) : option A :=
  match run.1 with
  | Value a => Some a
  | Raise _ => None
  end.

(** The result [dispatch] builds from what the awaited call did and from
    the clock reading [t] afterwards. *)
Definition classify (tool_name : string) (context : ToolContext) (start_time : Z)
    (o : outcome pyvalue) (t : Z) : ToolResult :=
  match o with
  | Value v =>
      {| status := SUCCESS; data := Some v; error := None;
         execution_time_ms := t - start_time; token_usage := [];
         result_metadata := [("tool_name", PyStr tool_name);
                             ("session_id", PyStr (session_id context))] |}
  | Raise e =>
      if decide (exn_cls e = TimeoutError) then
        error_result TIMEOUT
          ("Tool execution timed out after "
             +:+ pretty (max_execution_time context) +:+ "s")
          (t - start_time)
      else error_result FAILURE (exn_str e) (t - start_time)
  end.

(** The world in which the execution capability is awaited, when the call
    started in [w] and passed both checks. *)
Definition at_dispatch (tool_name : string) (context : ToolContext) (w : World) : World :=
  {| now := now w;
     log := log w ++ [active_tools_inc tool_name (tenant_id context);
                      call_validate_tool_input tool_name;
                      call_check_permissions tool_name;
                      call_execute_tool_impl tool_name] |}.

(** Event classes. *)
Definition is_gauge_inc (e : event) : bool :=
  match e with active_tools_inc _ _ => true | _ => false end.
Definition is_gauge_dec (e : event) : bool :=
  match e with active_tools_dec _ _ => true | _ => false end.
Definition is_counter (e : event) : bool :=
  match e with tool_execution_counter_inc _ _ _ => true | _ => false end.
Definition is_observe (e : event) : bool :=
  match e with tool_execution_duration_observe _ _ _ => true | _ => false end.
Definition is_recording (e : event) : bool := is_counter e || is_observe e.
Definition is_validation (e : event) : bool :=
  match e with call_validate_tool_input _ => true | _ => false end.
Definition is_impl_call (e : event) : bool :=
  match e with call_execute_tool_impl _ => true | _ => false end.

(** [precedesb P Q l]: in [l], no [Q]-event is followed by a [P]-event, that
    is, every [P]-event comes before every [Q]-event. *)
Fixpoint precedesb (P Q : event -> bool) (l : list event) : bool :=
  match l with
  | [] => true
  | e :: rest =>
      (negb (Q e) || forallb (fun x => negb (P x)) rest) && precedesb P Q rest
  end.

(** The two early exits of [execute_tool]. *)
Definition rejected (r : ToolResult) : bool :=
  match status r with
  | VALIDATION_ERROR | PERMISSION_DENIED => true
  | _ => false
  end.

(** ** Tier ranks

    The two dictionary reads of [check_permissions], with their different
    fallbacks: the caller's level falls back to 0, the tool's required level
    to 1. *)
Definition caller_rank (tier : string) : Z := default 0 (permission_levels !! tier).
Definition required_rank (tier : string) : Z := default 1 (permission_levels !! tier).

(** The rank function as the specification words it, one fallback (rank 1)
    for both sides, and the authorization it would give. *)
Definition spec_tier_rank (tier : string) : Z := default 1 (permission_levels !! tier).

Definition spec_authorize (tool_registry : gmap string ToolSpec)
    (tool_name : string) (context : ToolContext) : bool :=
  match tool_registry !! tool_name with
  | None => false
  | Some tool_spec =>
      Z.leb (spec_tier_rank (default "user" (spec_required_permission tool_spec)))
            (spec_tier_rank (permission_level context))
  end.

(** ** Sample registries and contexts *)

Definition echo_spec : ToolSpec :=
  {| spec_required_params := Some []; spec_required_permission := Some "guest";
     spec_type := Some "echo"; spec_description := None; spec_parameters := None |}.

Definition search_spec : ToolSpec :=
  {| spec_required_params := Some ["query"]; spec_required_permission := Some "user";
     spec_type := Some "web_search"; spec_description := Some "Search the web";
     spec_parameters := None |}.

Definition admin_spec : ToolSpec :=
  {| spec_required_params := None; spec_required_permission := Some "admin";
     spec_type := Some "tts"; spec_description := None; spec_parameters := None |}.

Definition fax_spec : ToolSpec :=
  {| spec_required_params := Some ["number"]; spec_required_permission := Some "guest";
     spec_type := Some "fax"; spec_description := None; spec_parameters := None |}.

Definition sample_registry : gmap string ToolSpec :=
  <["echo" := echo_spec]> (<["search" := search_spec]>
    (<["purge" := admin_spec]> (<["fax" := fax_spec]> ∅))).

Definition sample_context (level : string) : ToolContext :=
  with_permission_level level (ToolContext_default "acme" "s-1").

Definition with_max_execution_time (seconds : Z) (c : ToolContext) : ToolContext :=
  {| tenant_id := tenant_id c; session_id := session_id c;
     user_id := user_id c; agent_id := agent_id c;
     permission_level := permission_level c; max_execution_time := seconds;
     metadata := metadata c |}.

Definition w0 : World := {| now := 0; log := [] |}.

(** ** The adapter object: loading, reloading, health

    The adapter keeps the path of its registry file and the registry read
    from it.  Opening the file and parsing it with [yaml.safe_load] is the
    environment's part: [registry_file path] is what the two steps give for
    [path], either an exception or the parsed document, of which only the
    key ['tools'] is read ([None] when the document has no such key).  The
    logger calls are left out. *)
Record ToolAdapter : Type := mkToolAdapter {
  registry_path : string;
  tool_registry : gmap string ToolSpec
}.

Definition registry_files : Type := string -> outcome (option (gmap string ToolSpec)).

Definition _load_registry (registry_file : registry_files) (self : ToolAdapter)
  : ToolAdapter :=
  match registry_file (registry_path self) with
  | Value registry_data =>
      {| registry_path := registry_path self;
         tool_registry := default ∅ registry_data |}
  | Raise _ =>
      {| registry_path := registry_path self; tool_registry := ∅ |}
  end.

Definition default_registry_path : string := "/srv/primarch/tool_registry.yaml".

Definition reload_registry (registry_file : registry_files) (self : ToolAdapter)
  : ToolAdapter :=
  _load_registry registry_file self.

(** The dictionary of [get_tool_health]; [utcnow] is the text of
    [datetime.utcnow().isoformat()] at the time of the call. *)
Record ToolHealth : Type := mkToolHealth {
  health_status : string;
  tools_loaded : nat;
  health_registry_path : string;
  last_reload : string;
  metrics_endpoint : string
}.

Definition get_tool_health (utcnow : string) (self : ToolAdapter) : ToolHealth :=
  {| health_status := "healthy";
     tools_loaded := size (tool_registry self);
     health_registry_path := registry_path self;
     last_reload := utcnow;
     metrics_endpoint := "/metrics" |}.

(** ** Reading the gauge

    The value of the [active_tools] gauge for one pair of labels, as the
    events of a log leave it. *)
Definition gauge_delta (tool_name tenant : string) (e : event) : Z :=
  match e with
  | active_tools_inc t n =>
      if decide (t = tool_name /\ n = tenant) then 1 else 0
  | active_tools_dec t n =>
      if decide (t = tool_name /\ n = tenant) then -1 else 0
  | _ => 0
  end.

Definition active_tools_value (tool_name tenant : string) (l : list event) : Z :=
  foldr (fun e acc => gauge_delta tool_name tenant e + acc) 0 l.

Definition is_permission_check (e : event) : bool :=
  match e with call_check_permissions _ => true | _ => false end.

(** The text of the [TIMEOUT] result. *)
Definition timeout_message (context : ToolContext) : string :=
  "Tool execution timed out after " +:+ pretty (max_execution_time context) +:+ "s".

(** ** The pipeline with every exit

    [execute_tool_with] above has the exits of the module that end in a
    result.  The source has two more, which [Full] adds, together with the
    two conversions of [max_execution_time] that Python can refuse:
    - an exception that derives from [BaseException] only (cancellation,
      a keyboard interrupt) passes both [except] clauses of the inner [try];
    - [asyncio.wait_for] adds a positive timeout to the float clock of the
      loop before the coroutine is started, and an [int] from
      [2**1024 - 2**970] on raises [OverflowError] there;
    - the f-string of the timeout message turns the [int] into text, which
      raises [ValueError] for more than 4300 digits (Python 3.11; the limit
      of [sys.set_int_max_str_digits]); raised inside the [except] clause,
      it leaves [execute_tool] through the [finally] clause.
    [asyncio.TimeoutError] is the builtin [TimeoutError], as from
    Python 3.11. *)

Definition float_int_limit : Z := 2 ^ 1024 - 2 ^ 970.
Definition int_str_limit : Z := 10 ^ 4300.

Definition overflow_error : exn :=
  mkExn OtherException "int too large to convert to float".
Definition int_str_error : exn :=
  mkExn OtherException
    ("Exceeds the limit (4300 digits) for integer string conversion; "
       +:+ "use sys.set_int_max_str_digits() to increase the limit").

Module Full.

(** An exception as the [except] clauses tell them apart: one that derives
    from [Exception], or one that derives from [BaseException] only, of
    which the text is kept. *)
Inductive pyexn : Type :=
| Exc (e : exn)
| BaseExc (text : string).

Inductive exit (A : Type) : Type :=
| Returns (a : A)
| Raises (e : pyexn).
Arguments Returns {A} a.
Arguments Raises {A} e.

Definition M (A : Type) : Type := World -> exit A * World.

Definition ret {A} (a : A) : M A := fun w => (Returns a, w).
Definition raise {A} (e : pyexn) : M A := fun w => (Raises e, w).
Definition bind {A B} (m : M A) (k : A -> M B) : M B :=
  fun w => match m w with
           | (Returns a, w') => k a w'
           | (Raises e, w') => (Raises e, w')
           end.

Notation "x <~ c ;; k" := (bind c (fun x => k))
  (at level 100, c at next level, right associativity).
Notation "c ;;~ k" := (bind c (fun _ => k))
  (at level 100, right associativity).

Definition try_except {A} (m : M A) (h : pyexn -> M A) : M A :=
  fun w => match m w with
           | (Returns a, w') => (Returns a, w')
           | (Raises e, w') => h e w'
           end.

Definition try_finally {A} (m : M A) (fin : M unit) : M A :=
  fun w => match m w with
           | (o, w') =>
               match fin w' with
               | (Returns _, w'') => (o, w'')
               | (Raises e, w'') => (Raises e, w'')
               end
           end.

(** The steps written for the pipeline above, taken over as they are. *)
Definition lift {A} (m : World -> outcome A * World) : M A :=
  fun w => match m w with
           | (Value a, w') => (Returns a, w')
           | (Raise e, w') => (Raises (Exc e), w')
           end.

(** Coroutines that may raise either kind of exception. *)
Inductive task : Type :=
| Return (v : pyvalue)
| Throw (e : pyexn)
| Sleep (ms : Z) (k : task).

Fixpoint of_coroutine (c : coroutine) : task :=
  match c with
  | CoReturn v => Return v
  | CoRaise e => Throw (Exc e)
  | CoSleep ms k => Sleep ms (of_coroutine k)
  end.

Fixpoint run_until (c : task) (budget : Z) : M pyvalue :=
  match c with
  | Return v => ret v
  | Throw e => raise e
  | Sleep ms k =>
      if ms <? budget
      then lift (advance (Z.max 0 ms)) ;;~ run_until k (budget - Z.max 0 ms)
      else lift (advance budget) ;;~ raise (Exc (mkExn TimeoutError ""))
  end.

(** [asyncio.wait_for(c, timeout)] for an [int] timeout. *)
Definition wait_for (c : task) (timeout : Z) : M pyvalue :=
  if timeout <=? 0 then raise (Exc (mkExn TimeoutError ""))
  else if float_int_limit <=? timeout then raise (Exc overflow_error)
  else run_until c (timeout * 1000).

(** [str(n)], as the f-string of the timeout message calls it. *)
Definition int_str (n : Z) : M string :=
  if int_str_limit <=? Z.abs n then raise (Exc int_str_error)
  else ret (pretty n).

Section Gateway.
Variable impl :
  gmap string ToolSpec -> string -> gmap string pyvalue -> ToolContext -> task.
Variable tool_registry : gmap string ToolSpec.

Definition dispatch (tool_name : string) (inputs : gmap string pyvalue)
    (context : ToolContext) (start_time : Z) : M ToolResult :=
  try_except
    (lift (emit (call_execute_tool_impl tool_name)) ;;~
     data <~ wait_for (impl tool_registry tool_name inputs context)
                      (max_execution_time context) ;;
     t <~ lift time_time ;;
     ret {| status := SUCCESS; data := Some data; error := None;
            execution_time_ms := t - start_time;
            token_usage := [];
            result_metadata := [("tool_name", PyStr tool_name);
                                ("session_id", PyStr (session_id context))] |})
    (fun e =>
       match e with
       | Exc x =>
           if decide (exn_cls x = TimeoutError) then
             seconds <~ int_str (max_execution_time context) ;;
             t <~ lift time_time ;;
             ret (error_result TIMEOUT
                    ("Tool execution timed out after " +:+ seconds +:+ "s")
                    (t - start_time))
           else
             t <~ lift time_time ;;
             ret (error_result FAILURE (exn_str x) (t - start_time))
       | BaseExc _ => raise e
       end).

Definition execute_tool_with (tool_name : string) (inputs : gmap string pyvalue)
    (context : ToolContext) : M ToolResult :=
  start_time <~ lift time_time ;;
  lift (emit (active_tools_inc tool_name (tenant_id context))) ;;~
  exit <~ try_finally
    (lift (emit (call_validate_tool_input tool_name)) ;;~
     let '(is_valid, validation_error) :=
       validate_tool_input tool_registry tool_name inputs in
     if negb is_valid then
       t <~ lift time_time ;;
       let result :=
         {| status := VALIDATION_ERROR; data := None; error := validation_error;
            execution_time_ms := t - start_time;
            token_usage := []; result_metadata := [] |} in
       lift (_record_execution tool_name context result) ;;~
       ret (Returned result)
     else
       lift (emit (call_check_permissions tool_name)) ;;~
       if negb (check_permissions tool_registry tool_name context) then
         t <~ lift time_time ;;
         let result :=
           error_result PERMISSION_DENIED
             ("Insufficient permissions for tool '" +:+ tool_name +:+ "'")
             (t - start_time) in
         lift (_record_execution tool_name context result) ;;~
         ret (Returned result)
       else
         result <~ dispatch tool_name inputs context start_time ;;
         ret (FellThrough result))
    (lift (emit (active_tools_dec tool_name (tenant_id context)))) ;;
  match exit with
  | Returned result => ret result
  | FellThrough result =>
      lift (_record_execution tool_name context result) ;;~
      ret result
  end.
End Gateway.

Definition execute_tool : gmap string ToolSpec -> string -> gmap string pyvalue ->
    ToolContext -> M ToolResult :=
  execute_tool_with
    (fun reg tool_name inputs context =>
       of_coroutine (_execute_tool_impl reg tool_name inputs context)).

(** [execute_tool_safe].  [got] is what [get_adapter()] does when it is
    called: it hands back the adapter, or raises what the construction of
    the adapter raised. *)
Definition execute_tool_safe_with
    (impl : gmap string ToolSpec -> string -> gmap string pyvalue -> ToolContext -> task)
    (got : exit ToolAdapter)
    (tool_name : string) (inputs : gmap string pyvalue) (context : ToolContext)
  : M ToolResult :=
  try_except
    (adapter <~ (fun w => (got, w)) ;;
     execute_tool_with impl (tool_registry adapter) tool_name inputs context)
    (fun e =>
       match e with
       | Exc x => ret (error_result FAILURE ("Adapter error: " +:+ exn_str x) 0)
       | BaseExc _ => raise e
       end).

(** What the statements after the awaited call make of its outcome [o],
    with [t] the clock reading afterwards. *)
Definition settle (tool_name : string) (context : ToolContext) (start_time : Z)
    (o : exit pyvalue) (t : Z) : exit ToolResult :=
  match o with
  | Returns v => Returns (classify tool_name context start_time (Value v) t)
  | Raises (Exc x) =>
      if decide (exn_cls x = TimeoutError) then
        if int_str_limit <=? Z.abs (max_execution_time context)
        then Raises (Exc int_str_error)
        else Returns (classify tool_name context start_time (Raise x) t)
      else Returns (classify tool_name context start_time (Raise x) t)
  | Raises (BaseExc text) => Raises (BaseExc text)
  end.

End Full.

(** * Properties *)

(** ** Sample runs *)

Example run_search :
  execute_tool sample_registry "search" {["query" := PyStr "rocq"]}
    (sample_context "user") w0 =
  (Value {| status := SUCCESS;
            data := Some (PyDict
              [("query", PyStr "rocq");
               ("results", PyList
                  [PyDict [("title", PyStr "Example Result");
                           ("url", PyStr "https://example.com");
                           ("snippet", PyStr "Sample snippet")]])]);
            error := None; execution_time_ms := 500; token_usage := [];
            result_metadata := [("tool_name", PyStr "search");
                                ("session_id", PyStr "s-1")] |},
   {| now := 500;
      log := [active_tools_inc "search" "acme";
              call_validate_tool_input "search";
              call_check_permissions "search";
              call_execute_tool_impl "search";
              active_tools_dec "search" "acme";
              tool_execution_counter_inc "search" "success" "acme";
              tool_execution_duration_observe "search" "acme" 500] |}).
Proof. vm_compute. reflexivity. Qed.

Example run_purge_short_deadline :
  returned (execute_tool sample_registry "purge" ∅
              (with_max_execution_time (-2) (sample_context "admin")) w0) =
  Some (error_result TIMEOUT "Tool execution timed out after -2s" 0).
Proof. vm_compute. reflexivity. Qed.

Example run_unknown_tool :
  execute_tool sample_registry "translate" ∅ (sample_context "admin") w0 =
  (Value (error_result VALIDATION_ERROR "Tool 'translate' not found in registry" 0),
   {| now := 0;
      log := [active_tools_inc "translate" "acme";
              call_validate_tool_input "translate";
              tool_execution_counter_inc "translate" "validation_error" "acme";
              tool_execution_duration_observe "translate" "acme" 0;
              active_tools_dec "translate" "acme"] |}).
Proof. vm_compute. reflexivity. Qed.

Example listing_for_guest :
  name <$> get_available_tools sample_registry (sample_context "guest")
    ≡ₚ ["echo"; "fax"].
Proof. vm_compute. apply perm_swap || reflexivity. Qed.

(** ** Awaiting a coroutine *)

Lemma run_until_log (c : coroutine) :
  forall budget w, log (run_until c budget w).2 = log w.
Proof.
  induction c as [v | e | ms k IH]; intros budget w; simpl; try reflexivity.
  destruct (ms <? budget); unfold bind, advance, raise; simpl.
  - rewrite IH. reflexivity.
  - reflexivity.
Qed.

Lemma wait_for_log (c : coroutine) (timeout : Z) (w : World) :
  log (wait_for c timeout w).2 = log w.
Proof.
  unfold wait_for. destruct (timeout <=? 0); [reflexivity | apply run_until_log].
Qed.

(** Whether an awaited coroutine returns, raises or times out does not
    depend on the world it is started in. *)
Lemma run_until_outcome (c : coroutine) :
  forall budget w1 w2, (run_until c budget w1).1 = (run_until c budget w2).1.
Proof.
  induction c as [v | e | ms k IH]; intros budget w1 w2; simpl; try reflexivity.
  destruct (ms <? budget); unfold bind, advance, raise; simpl.
  - apply IH.
  - reflexivity.
Qed.

Lemma wait_for_outcome (c : coroutine) (timeout : Z) (w1 w2 : World) :
  (wait_for c timeout w1).1 = (wait_for c timeout w2).1.
Proof.
  unfold wait_for. destruct (timeout <=? 0); [reflexivity | apply run_until_outcome].
Qed.

(** ** The three ways through [execute_tool] *)

Section Runs.
Variable impl :
  gmap string ToolSpec -> string -> gmap string pyvalue -> ToolContext -> coroutine.
Variable tool_registry : gmap string ToolSpec.
Variables (tool_name : string) (inputs : gmap string pyvalue) (context : ToolContext).
Variable w : World.

Let tenant := tenant_id context.
Let awaited := wait_for (impl tool_registry tool_name inputs context)
                        (max_execution_time context)
                        (at_dispatch tool_name context w).

Lemma execute_tool_invalid (validation_error : option string) :
  validate_tool_input tool_registry tool_name inputs = (false, validation_error) ->
  execute_tool_with impl tool_registry tool_name inputs context w =
    (Value {| status := VALIDATION_ERROR; data := None;
              error := validation_error; execution_time_ms := 0;
              token_usage := []; result_metadata := [] |},
     {| now := now w;
        log := log w ++ [active_tools_inc tool_name tenant;
                         call_validate_tool_input tool_name;
                         tool_execution_counter_inc tool_name "validation_error" tenant;
                         tool_execution_duration_observe tool_name tenant 0;
                         active_tools_dec tool_name tenant] |}).
Proof.
  intros Hv. unfold execute_tool_with, bind, try_finally, time_time, emit, ret,
    _record_execution. simpl. rewrite Hv. simpl.
  rewrite Z.sub_diag, <- !app_assoc. reflexivity.
Qed.

Lemma execute_tool_denied (x : option string) :
  validate_tool_input tool_registry tool_name inputs = (true, x) ->
  check_permissions tool_registry tool_name context = false ->
  execute_tool_with impl tool_registry tool_name inputs context w =
    (Value (error_result PERMISSION_DENIED
              ("Insufficient permissions for tool '" +:+ tool_name +:+ "'") 0),
     {| now := now w;
        log := log w ++ [active_tools_inc tool_name tenant;
                         call_validate_tool_input tool_name;
                         call_check_permissions tool_name;
                         tool_execution_counter_inc tool_name "permission_denied" tenant;
                         tool_execution_duration_observe tool_name tenant 0;
                         active_tools_dec tool_name tenant] |}).
Proof.
  intros Hv Hp. unfold execute_tool_with, bind, try_finally, time_time, emit, ret,
    _record_execution. simpl. rewrite Hv. simpl. rewrite Hp. simpl.
  rewrite Z.sub_diag, <- !app_assoc. reflexivity.
Qed.

Lemma execute_tool_dispatched (x : option string) :
  validate_tool_input tool_registry tool_name inputs = (true, x) ->
  check_permissions tool_registry tool_name context = true ->
  let result := classify tool_name context (now w) awaited.1 (now awaited.2) in
  execute_tool_with impl tool_registry tool_name inputs context w =
    (Value result,
     {| now := now awaited.2;
        log := log w ++ [active_tools_inc tool_name tenant;
                         call_validate_tool_input tool_name;
                         call_check_permissions tool_name;
                         call_execute_tool_impl tool_name;
                         active_tools_dec tool_name tenant;
                         tool_execution_counter_inc tool_name
                           (status_value (status result)) tenant;
                         tool_execution_duration_observe tool_name tenant
                           (execution_time_ms result)] |}).
Proof.
  intros Hv Hp.
  pose proof (wait_for_log (impl tool_registry tool_name inputs context)
                (max_execution_time context) (at_dispatch tool_name context w)) as Hlog.
  fold awaited in Hlog.
  unfold execute_tool_with, dispatch, try_except.
  unfold bind, try_finally, time_time, emit, ret, _record_execution.
  simpl. rewrite Hv. simpl. rewrite Hp. simpl. rewrite <- !app_assoc. simpl.
  fold (at_dispatch tool_name context w). fold awaited. fold tenant.
  destruct awaited as [[v | e] w2]; simpl in *.
  - rewrite Hlog. unfold at_dispatch. simpl. rewrite <- !app_assoc. reflexivity.
  - destruct (decide (exn_cls e = TimeoutError)); simpl;
      rewrite Hlog; unfold at_dispatch; simpl; rewrite <- !app_assoc; reflexivity.
Qed.
End Runs.

Lemma new_events_app (w : World) (t : Z) (l : list event) :
  new_events w {| now := t; log := log w ++ l |} = l.
Proof.
  unfold new_events. simpl. rewrite drop_app_ge by lia.
  rewrite Nat.sub_diag. reflexivity.
Qed.

(** ** Tiers and authorization *)

Lemma permission_levels_lookup (tier : string) :
  permission_levels !! tier =
    if decide (tier = "guest") then Some 0
    else if decide (tier = "user") then Some 1
    else if decide (tier = "admin") then Some 2
    else None.
Proof.
  unfold permission_levels. rewrite !lookup_insert, lookup_empty.
  repeat case_decide; congruence.
Qed.

(** On a recognized tier both reads give the rank of the table, and the
    table holds exactly guest 0, user 1, admin 2. *)
Lemma recognized_rank (tier : string) (r : Z) :
  permission_levels !! tier = Some r ->
  caller_rank tier = r /\ required_rank tier = r /\
  (tier = "guest" /\ r = 0 \/ tier = "user" /\ r = 1 \/ tier = "admin" /\ r = 2).
Proof.
  intros H. unfold caller_rank, required_rank. rewrite H. simpl.
  split; [reflexivity | split; [reflexivity |]].
  rewrite permission_levels_lookup in H.
  repeat case_decide; simplify_eq; auto.
Qed.

Lemma check_permissions_rank (reg : gmap string ToolSpec) (tool_name : string)
    (tool_spec : ToolSpec) (context : ToolContext) :
  reg !! tool_name = Some tool_spec ->
  check_permissions reg tool_name context =
    (required_rank (default "user" (spec_required_permission tool_spec))
       <=? caller_rank (permission_level context)).
Proof. intros H. unfold check_permissions. rewrite H. reflexivity. Qed.

Lemma check_permissions_absent (reg : gmap string ToolSpec) (tool_name : string)
    (context : ToolContext) :
  reg !! tool_name = None -> check_permissions reg tool_name context = false.
Proof. intros H. unfold check_permissions. rewrite H. reflexivity. Qed.

(** C1, as the claim states it, fails: with one fallback rank 1 for both
    sides, the unrecognized caller tier "superuser" would be authorized for a
    tool that requires "user"; [check_permissions] denies it, because the
    caller's fallback rank is 0. *)
Lemma unknown_caller_tier_is_not_user :
  permission_levels !! "superuser" = None /\
  spec_authorize sample_registry "search" (sample_context "superuser") = true /\
  check_permissions sample_registry "search" (sample_context "superuser") = false /\
  caller_rank "superuser" = 0.
Proof. vm_compute. repeat split; reflexivity. Qed.

(** C1, amended: an unrecognized tier string on the tool's side counts as
    rank 1 (user), an unrecognized tier string on the caller's side counts as
    rank 0 (guest); in particular a caller with the tier "superuser" is
    denied a tool whose required permission is "admin". *)
Theorem unknown_tier_fallbacks (reg : gmap string ToolSpec) (tool_name : string)
    (tool_spec : ToolSpec) (context : ToolContext) :
  reg !! tool_name = Some tool_spec ->
  let required := default "user" (spec_required_permission tool_spec) in
  (permission_levels !! permission_level context = None ->
     caller_rank (permission_level context) = 0 /\
     check_permissions reg tool_name context = (required_rank required <=? 0)) /\
  (permission_levels !! required = None ->
     required_rank required = 1 /\
     check_permissions reg tool_name context =
       (1 <=? caller_rank (permission_level context))) /\
  (required = "admin" -> permission_level context = "superuser" ->
     required_rank required = 2 /\ check_permissions reg tool_name context = false).
Proof.
  intros Hreg required. rewrite (check_permissions_rank _ _ _ _ Hreg).
  fold required. repeat split.
  - unfold caller_rank. rewrite H. reflexivity.
  - unfold caller_rank at 1. rewrite H. reflexivity.
  - unfold required_rank. rewrite H. reflexivity.
  - unfold required_rank at 1. rewrite H. reflexivity.
  - rewrite H. reflexivity.
  - rewrite H, H0. reflexivity.
Qed.

Lemma unknown_tier_fallbacks_witness :
  sample_registry !! "purge" = Some admin_spec /\
  permission_levels !! permission_level (sample_context "superuser") = None /\
  check_permissions sample_registry "purge" (sample_context "superuser") = false.
Proof.
  pose proof (unknown_tier_fallbacks sample_registry "purge" admin_spec
                (sample_context "superuser") eq_refl) as [_ [_ H]].
  split; [reflexivity | split; [reflexivity |]].
  exact (proj2 (H eq_refl eq_refl)).
Defined.

(** ** Required parameters *)

Lemma validate_required_present (inputs : gmap string pyvalue) (required : list string) :
  Forall (fun q => is_Some (inputs !! q)) required ->
  validate_required inputs required = (true, None).
Proof.
  induction 1 as [| q rest [v Hq] _ IH]; simpl; [reflexivity |].
  rewrite Hq. exact IH.
Qed.

Lemma validate_required_first_missing (inputs : gmap string pyvalue)
    (before : list string) (p : string) (after : list string) :
  Forall (fun q => is_Some (inputs !! q)) before ->
  inputs !! p = None ->
  validate_required inputs (before ++ p :: after)%list =
    (false, Some ("Missing required parameter: " +:+ p)).
Proof.
  induction 1 as [| q rest [v Hq] _ IH]; intros Hp; simpl.
  - rewrite Hp. reflexivity.
  - rewrite Hq. apply IH, Hp.
Qed.

(** A list with a missing parameter splits at its first missing one. *)
Lemma first_missing_split (inputs : gmap string pyvalue) (required : list string) :
  (exists q, q ∈ required /\ inputs !! q = None) ->
  exists (before : list string) (p : string) (after : list string),
    required = (before ++ p :: after)%list /\
    Forall (fun q => is_Some (inputs !! q)) before /\
    inputs !! p = None.
Proof.
  induction required as [| a rest IH]; intros [q [Hin Hq]].
  - apply elem_of_nil in Hin. contradiction.
  - destruct (inputs !! a) as [v |] eqn:Ha.
    + apply elem_of_cons in Hin as [-> | Hin]; [congruence |].
      destruct IH as (before & p & after & -> & Hall & Hp); [eauto |].
      exists (a :: before), p, after. repeat split; [| exact Hp].
      constructor; [rewrite Ha; eauto | exact Hall].
    + exists [], a, rest. repeat split; [constructor | exact Ha].
Qed.

Lemma validate_tool_input_present (reg : gmap string ToolSpec) (tool_name : string)
    (tool_spec : ToolSpec) (inputs : gmap string pyvalue) :
  reg !! tool_name = Some tool_spec ->
  Forall (fun q => is_Some (inputs !! q)) (default [] (spec_required_params tool_spec)) ->
  validate_tool_input reg tool_name inputs = (true, None).
Proof.
  intros Hreg Hall. unfold validate_tool_input. rewrite Hreg.
  apply validate_required_present, Hall.
Qed.

(** C4, as the claim states it, fails: a guest calling the user-tier tool
    "search" without its required parameter "query" is below the required
    rank, yet the call ends in validation_error, not permission_denied:
    validation runs before the permission check. *)
Lemma low_tier_without_required_parameter :
  caller_rank (permission_level (sample_context "guest")) <
    required_rank (default "user" (spec_required_permission search_spec)) /\
  sample_registry !! "search" = Some search_spec /\
  status <$> returned (execute_tool sample_registry "search" ∅ (sample_context "guest") w0)
    = Some VALIDATION_ERROR.
Proof. vm_compute. repeat split; reflexivity. Qed.

(** C4, amended: for a registered tool, authorization succeeds if and only
    if the caller's rank is at least the tool's required rank, under
    guest 0 < user 1 < admin 2; a tool absent from the registry is never
    authorized; and for every caller whose rank is strictly below the
    required rank, called with an input bag that holds every required
    parameter, [execute_tool] returns permission_denied without invoking the
    execution capability. *)
Theorem authorization_by_rank
    (impl : gmap string ToolSpec -> string -> gmap string pyvalue -> ToolContext -> coroutine)
    (reg : gmap string ToolSpec) (tool_name : string) (context : ToolContext) :
  (caller_rank "guest" = 0 /\ caller_rank "user" = 1 /\ caller_rank "admin" = 2 /\
   required_rank "guest" = 0 /\ required_rank "user" = 1 /\ required_rank "admin" = 2) /\
  (reg !! tool_name = None -> check_permissions reg tool_name context = false) /\
  (forall tool_spec, reg !! tool_name = Some tool_spec ->
     let required := required_rank (default "user" (spec_required_permission tool_spec)) in
     let held := caller_rank (permission_level context) in
     (check_permissions reg tool_name context = true <-> required <= held) /\
     (forall inputs w,
        Forall (fun q => is_Some (inputs !! q))
               (default [] (spec_required_params tool_spec)) ->
        held < required ->
        exists r w',
          execute_tool_with impl reg tool_name inputs context w = (Value r, w') /\
          status r = PERMISSION_DENIED /\ data r = None /\
          call_execute_tool_impl tool_name ∉ new_events w w')).
Proof.
  split; [vm_compute; repeat split; reflexivity |].
  split; [apply check_permissions_absent |].
  intros tool_spec Hreg required held.
  assert (Hcheck : check_permissions reg tool_name context = (required <=? held))
    by apply (check_permissions_rank _ _ _ _ Hreg).
  split.
  - rewrite Hcheck. apply Z.leb_le.
  - intros inputs w Hall Hlow.
    assert (Hdenied : check_permissions reg tool_name context = false)
      by (rewrite Hcheck; apply Z.leb_gt, Hlow).
    eexists _, _. split.
    + apply (execute_tool_denied impl reg tool_name inputs context w None);
        [apply (validate_tool_input_present _ _ _ _ Hreg Hall) | exact Hdenied].
    + split; [reflexivity | split; [reflexivity |]].
      rewrite new_events_app. intros Hin.
      repeat (apply elem_of_cons in Hin as [Hin | Hin]; [discriminate |]).
      apply elem_of_nil in Hin. exact Hin.
Qed.

Lemma authorization_by_rank_witness :
  exists r w',
    execute_tool sample_registry "search" {["query" := PyStr "rocq"]}
      (sample_context "guest") w0 = (Value r, w') /\
    status r = PERMISSION_DENIED.
Proof.
  destruct (authorization_by_rank _execute_tool_impl sample_registry "search"
              (sample_context "guest")) as (_ & _ & H).
  destruct (H search_spec eq_refl) as [_ Hrun].
  destruct (Hrun {["query" := PyStr "rocq"]} w0) as (r & w' & Heq & Hst & _).
  - repeat constructor. vm_compute. eauto.
  - vm_compute. reflexivity.
  - exists r, w'. split; [exact Heq | exact Hst].
Defined.

(** C3: for a registered tool and an input bag that misses at least one of
    its required parameters, [execute_tool] returns validation_error, the
    message names the first missing parameter in the order of the
    [required_params] list, and the execution capability is not invoked. *)
Theorem missing_parameter_is_validation_error
    (impl : gmap string ToolSpec -> string -> gmap string pyvalue -> ToolContext -> coroutine)
    (reg : gmap string ToolSpec) (tool_name : string) (tool_spec : ToolSpec)
    (inputs : gmap string pyvalue) (context : ToolContext) (w : World) :
  reg !! tool_name = Some tool_spec ->
  (exists q, q ∈ default [] (spec_required_params tool_spec) /\ inputs !! q = None) ->
  exists (before : list string) (p : string) (after : list string) r w',
    default [] (spec_required_params tool_spec) = (before ++ p :: after)%list /\
    Forall (fun q => is_Some (inputs !! q)) before /\
    inputs !! p = None /\
    execute_tool_with impl reg tool_name inputs context w = (Value r, w') /\
    status r = VALIDATION_ERROR /\
    error r = Some ("Missing required parameter: " +:+ p) /\
    data r = None /\
    count_events is_impl_call (new_events w w') = 0%nat.
Proof.
  intros Hreg Hmissing.
  destruct (first_missing_split _ _ Hmissing) as (before & p & after & Hsplit & Hall & Hp).
  exists before, p, after. eexists _, _.
  split; [exact Hsplit |]. split; [exact Hall |]. split; [exact Hp |].
  split.
  - apply execute_tool_invalid. unfold validate_tool_input. rewrite Hreg, Hsplit.
    apply validate_required_first_missing; assumption.
  - rewrite new_events_app. repeat split.
Qed.

Lemma missing_parameter_is_validation_error_witness :
  exists r w',
    execute_tool sample_registry "search" {["limit" := PyInt 5]}
      (sample_context "user") w0 = (Value r, w') /\
    status r = VALIDATION_ERROR /\
    error r = Some "Missing required parameter: query".
Proof.
  destruct (missing_parameter_is_validation_error _execute_tool_impl sample_registry
              "search" search_spec {["limit" := PyInt 5]} (sample_context "user") w0
              eq_refl)
    as (before & p & after & r & w' & Hsplit & Hall & Hp & Hrun & Hst & Herr & _).
  - exists "query". split; [apply list_elem_of_here | reflexivity].
  - exists r, w'. split; [exact Hrun |]. split; [exact Hst |].
    rewrite Herr. simpl in Hsplit.
    destruct before as [| b before'].
    + injection Hsplit as <- _. reflexivity.
    + injection Hsplit as _ Hnil. destruct before'; discriminate Hnil.
Defined.

(** ** Every call, whatever its outcome *)

Lemma classify_status (tool_name : string) (context : ToolContext) (start_time : Z)
    (o : outcome pyvalue) (t : Z) :
  status (classify tool_name context start_time o t) =
    match o with
    | Value _ => SUCCESS
    | Raise e => if decide (exn_cls e = TimeoutError) then TIMEOUT else FAILURE
    end.
Proof. destruct o as [v | e]; simpl; [| case_decide]; reflexivity. Qed.

Lemma classify_not_rejected (tool_name : string) (context : ToolContext)
    (start_time : Z) (o : outcome pyvalue) (t : Z) :
  rejected (classify tool_name context start_time o t) = false.
Proof.
  unfold rejected. rewrite classify_status.
  destruct o as [v | e]; [| case_decide]; reflexivity.
Qed.

(** A call returns, by exactly one of three paths; each path fixes the
    result and the events of the call. *)
Lemma execute_tool_paths
    (impl : gmap string ToolSpec -> string -> gmap string pyvalue -> ToolContext -> coroutine)
    (reg : gmap string ToolSpec) (tool_name : string)
    (inputs : gmap string pyvalue) (context : ToolContext) (w : World) :
  let tenant := tenant_id context in
  let awaited := wait_for (impl reg tool_name inputs context)
                   (max_execution_time context) (at_dispatch tool_name context w) in
  exists r t l,
    execute_tool_with impl reg tool_name inputs context w =
      (Value r, {| now := t; log := log w ++ l |}) /\
    ((exists msg, validate_tool_input reg tool_name inputs = (false, msg) /\
        r = {| status := VALIDATION_ERROR; data := None; error := msg;
               execution_time_ms := 0; token_usage := []; result_metadata := [] |} /\
        l = [active_tools_inc tool_name tenant;
             call_validate_tool_input tool_name;
             tool_execution_counter_inc tool_name "validation_error" tenant;
             tool_execution_duration_observe tool_name tenant 0;
             active_tools_dec tool_name tenant]) \/
     (check_permissions reg tool_name context = false /\
        r = error_result PERMISSION_DENIED
              ("Insufficient permissions for tool '" +:+ tool_name +:+ "'") 0 /\
        l = [active_tools_inc tool_name tenant;
             call_validate_tool_input tool_name;
             call_check_permissions tool_name;
             tool_execution_counter_inc tool_name "permission_denied" tenant;
             tool_execution_duration_observe tool_name tenant 0;
             active_tools_dec tool_name tenant]) \/
     (r = classify tool_name context (now w) awaited.1 (now awaited.2) /\
        l = [active_tools_inc tool_name tenant;
             call_validate_tool_input tool_name;
             call_check_permissions tool_name;
             call_execute_tool_impl tool_name;
             active_tools_dec tool_name tenant;
             tool_execution_counter_inc tool_name (status_value (status r)) tenant;
             tool_execution_duration_observe tool_name tenant (execution_time_ms r)])).
Proof.
  intros tenant awaited.
  destruct (validate_tool_input reg tool_name inputs) as [[|] msg] eqn:Hv.
  - destruct (check_permissions reg tool_name context) eqn:Hp.
    + eexists _, _, _. split.
      * apply (execute_tool_dispatched impl reg tool_name inputs context w msg Hv Hp).
      * right. right. split; reflexivity.
    + eexists _, _, _. split.
      * apply (execute_tool_denied impl reg tool_name inputs context w msg Hv Hp).
      * right. left. repeat split; reflexivity.
  - eexists _, _, _. split.
    + apply (execute_tool_invalid impl reg tool_name inputs context w msg Hv).
    + left. exists msg. repeat split; reflexivity.
Qed.

(** On the successful echo call the gauge is decremented before the counter
    and the histogram are touched. *)
Lemma decrement_precedes_recording_on_success :
  let run := execute_tool sample_registry "echo" {["message" := PyStr "hi"]}
               (sample_context "guest") w0 in
  status <$> returned run = Some SUCCESS /\
  precedesb is_recording is_gauge_dec (new_events w0 run.2) = false /\
  new_events w0 run.2 =
    [active_tools_inc "echo" "acme"; call_validate_tool_input "echo";
     call_check_permissions "echo"; call_execute_tool_impl "echo";
     active_tools_dec "echo" "acme";
     tool_execution_counter_inc "echo" "success" "acme";
     tool_execution_duration_observe "echo" "acme" 0].
Proof. vm_compute. repeat split; reflexivity. Qed.

(** The order of the gauge and of the recording in a call that returns: the
    gauge is incremented once, before validation, and decremented once; on
    the two rejection paths (validation_error, permission_denied) the
    recording precedes the decrement, on the dispatch paths (success,
    timeout, failure) the decrement precedes the recording. *)
Theorem gauge_and_recording_order
    (impl : gmap string ToolSpec -> string -> gmap string pyvalue -> ToolContext -> coroutine)
    (reg : gmap string ToolSpec) (tool_name : string)
    (inputs : gmap string pyvalue) (context : ToolContext) (w : World) :
  exists r w',
    execute_tool_with impl reg tool_name inputs context w = (Value r, w') /\
    let l := new_events w w' in
    count_events is_gauge_inc l = 1%nat /\
    count_events is_validation l = 1%nat /\
    precedesb is_gauge_inc is_validation l = true /\
    count_events is_gauge_dec l = 1%nat /\
    count_events is_recording l = 2%nat /\
    precedesb is_recording is_gauge_dec l = rejected r /\
    precedesb is_gauge_dec is_recording l = negb (rejected r).
Proof.
  destruct (execute_tool_paths impl reg tool_name inputs context w)
    as (r & t & l & Hrun & Hpath).
  exists r, {| now := t; log := log w ++ l |}. split; [exact Hrun |].
  rewrite new_events_app.
  destruct Hpath as [(msg & _ & -> & ->) | [(_ & -> & ->) | (Hr & ->)]].
  - repeat split.
  - repeat split.
  - assert (Hrej : rejected r = false)
      by (rewrite Hr; apply classify_not_rejected).
    rewrite Hrej. repeat split.
Qed.


(** ** The execution capability of the module *)

Lemma _execute_tool_impl_echo (reg : gmap string ToolSpec) (tool_name : string)
    (tool_spec : ToolSpec) (inputs : gmap string pyvalue) (context : ToolContext) :
  reg !! tool_name = Some tool_spec ->
  spec_type tool_spec = Some "echo" ->
  _execute_tool_impl reg tool_name inputs context =
    CoReturn (PyDict
      [("echo", default (PyStr "Hello from Primarch!") (inputs !! "message"))]).
Proof.
  intros Hreg Hty. unfold _execute_tool_impl. rewrite Hreg, Hty. reflexivity.
Qed.

Lemma _execute_tool_impl_unrecognized (reg : gmap string ToolSpec) (tool_name : string)
    (tool_spec : ToolSpec) (inputs : gmap string pyvalue) (context : ToolContext) :
  reg !! tool_name = Some tool_spec ->
  let tool_type := default "unknown" (spec_type tool_spec) in
  tool_type ∉ ["web_search"; "asr"; "tts"; "echo"] ->
  _execute_tool_impl reg tool_name inputs context =
    CoRaise (mkExn NotImplementedError
               ("Tool type '" +:+ tool_type +:+ "' not implemented")).
Proof.
  intros Hreg tool_type Hty. unfold _execute_tool_impl. rewrite Hreg.
  fold tool_type. simpl.
  repeat case_decide; try reflexivity; exfalso; apply Hty;
    match goal with H : tool_type = _ |- _ => rewrite H end;
    repeat constructor.
Qed.

(** ** The listing *)

Lemma elem_of_get_available_tools (reg : gmap string ToolSpec) (context : ToolContext)
    (s : ToolSummary) :
  s ∈ get_available_tools reg context <->
  exists tool_name tool_spec,
    reg !! tool_name = Some tool_spec /\
    check_permissions reg tool_name context = true /\
    s = tool_summary tool_name tool_spec.
Proof.
  unfold get_available_tools. rewrite list_elem_of_In, in_flat_map. split.
  - intros [[n sp] [Hin Hs]]. simpl in Hs.
    apply list_elem_of_In, elem_of_map_to_list in Hin.
    destruct (check_permissions reg n context) eqn:Hp; simpl in Hs.
    + destruct Hs as [<- | []]. exists n, sp. auto.
    + contradiction.
  - intros (n & sp & Hreg & Hp & ->). exists (n, sp). split.
    + apply list_elem_of_In, elem_of_map_to_list, Hreg.
    + simpl. rewrite Hp. left. reflexivity.
Qed.

Lemma listed_names_NoDup (reg : gmap string ToolSpec) (context : ToolContext)
    (items : list (string * ToolSpec)) :
  NoDup items.*1 ->
  NoDup (name <$>
           flat_map (fun item : string * ToolSpec =>
                       if check_permissions reg item.1 context
                       then [tool_summary item.1 item.2] else []) items).
Proof.
  induction items as [| [n sp] rest IH]; simpl; intros Hnd.
  - constructor.
  - apply NoDup_cons in Hnd as [Hn Hrest].
    destruct (check_permissions reg n context); simpl; [| exact (IH Hrest)].
    apply NoDup_cons. split; [| exact (IH Hrest)].
    intros Hin. apply Hn. clear IH Hn Hrest.
    induction rest as [| [n' sp'] rest IH]; simpl in *.
    + apply elem_of_nil in Hin. contradiction.
    + destruct (check_permissions reg n' context); simpl in Hin.
      * apply elem_of_cons in Hin as [-> | Hin]; [left | right; exact (IH Hin)].
      * right. exact (IH Hin).
Qed.

(** The listing reads nothing of the context but its permission level. *)
Lemma get_available_tools_level (reg : gmap string ToolSpec) (c1 c2 : ToolContext) :
  permission_level c1 = permission_level c2 ->
  get_available_tools reg c1 = get_available_tools reg c2.
Proof.
  intros Hlevel. unfold get_available_tools.
  apply flat_map_ext. intros [n sp]. simpl.
  unfold check_permissions. rewrite Hlevel. reflexivity.
Qed.

(** C9: the listing for a context holds a summary for a tool name if and
    only if that name is in the registry and [check_permissions] succeeds for
    it.  The listing is deterministic: it is a function of the registry and
    of the context, of which it reads the permission level only; and it holds
    at most one summary per name. *)
Theorem get_available_tools_spec (reg : gmap string ToolSpec) (context : ToolContext)
    (tool_name : string) :
  ((exists s, s ∈ get_available_tools reg context /\ name s = tool_name) <->
   is_Some (reg !! tool_name) /\ check_permissions reg tool_name context = true) /\
  get_available_tools reg context =
    get_available_tools reg
      (with_permission_level (permission_level context) (ToolContext_default "" "")) /\
  NoDup (name <$> get_available_tools reg context).
Proof.
  split; [| split].
  - split.
    + intros (s & Hin & <-).
      apply elem_of_get_available_tools in Hin as (n & sp & Hreg & Hp & ->).
      simpl. split; [eexists; exact Hreg | exact Hp].
    + intros [[sp Hreg] Hp]. exists (tool_summary tool_name sp). split.
      * apply elem_of_get_available_tools. exists tool_name, sp. auto.
      * reflexivity.
  - apply get_available_tools_level. reflexivity.
  - apply listed_names_NoDup, NoDup_fst_map_to_list.
Qed.

(** C10: permission checking is monotone in the caller's tier.  For two
    contexts that differ only in their permission level, both levels being
    recognized tiers and the first of rank at least the second, every tool
    authorized for the second is authorized for the first, and every summary
    listed for the second is listed for the first. *)
Theorem check_permissions_monotone (reg : gmap string ToolSpec) (context : ToolContext)
    (high low : string) (rank_high rank_low : Z) :
  permission_levels !! high = Some rank_high ->
  permission_levels !! low = Some rank_low ->
  rank_low <= rank_high ->
  (forall tool_name,
     check_permissions reg tool_name (with_permission_level low context) = true ->
     check_permissions reg tool_name (with_permission_level high context) = true) /\
  (forall s,
     s ∈ get_available_tools reg (with_permission_level low context) ->
     s ∈ get_available_tools reg (with_permission_level high context)).
Proof.
  intros Hhigh Hlow Hle.
  assert (Hmono : forall tool_name,
     check_permissions reg tool_name (with_permission_level low context) = true ->
     check_permissions reg tool_name (with_permission_level high context) = true).
  { intros tool_name. unfold check_permissions.
    destruct (reg !! tool_name) as [sp |]; [| discriminate]. simpl.
    rewrite Hhigh, Hlow. simpl. rewrite !Z.leb_le. lia. }
  split; [exact Hmono |].
  intros s Hin.
  apply elem_of_get_available_tools in Hin as (n & sp & Hreg & Hp & ->).
  apply elem_of_get_available_tools. exists n, sp. auto.
Qed.

Lemma check_permissions_monotone_witness :
  check_permissions sample_registry "search" (sample_context "admin") = true /\
  tool_summary "search" search_spec ∈ get_available_tools sample_registry (sample_context "admin").
Proof.
  destruct (check_permissions_monotone sample_registry (sample_context "user")
              "admin" "user" 2 1) as [Hcheck Hlist];
    [reflexivity | reflexivity | lia |].
  split.
  - apply (Hcheck "search"). reflexivity.
  - apply (Hlist (tool_summary "search" search_spec)).
    apply elem_of_get_available_tools. exists "search", search_spec.
    repeat split; reflexivity.
Defined.

(** * Further properties of the module *)

(** ** Validation *)

Lemma validate_required_shape (inputs : gmap string pyvalue) (required : list string) :
  validate_required inputs required = (true, None) \/
  exists msg, validate_required inputs required = (false, Some msg).
Proof.
  induction required as [| p rest IH]; simpl; [left; reflexivity |].
  destruct (inputs !! p); [exact IH | right; eauto].
Qed.

Lemma validate_required_passes (inputs : gmap string pyvalue) (required : list string) :
  validate_required inputs required = (true, None) <->
  Forall (fun q => is_Some (inputs !! q)) required.
Proof.
  split; [| apply validate_required_present].
  induction required as [| p rest IH]; simpl; intros H; [constructor |].
  destruct (inputs !! p) as [v |] eqn:Hp; [| discriminate].
  constructor; [rewrite Hp; eauto | exact (IH H)].
Qed.

Lemma validate_required_dom (inputs inputs' : gmap string pyvalue)
    (required : list string) :
  dom inputs' = dom inputs ->
  validate_required inputs' required = validate_required inputs required.
Proof.
  intros Hdom. induction required as [| p rest IH]; simpl; [reflexivity |].
  destruct (inputs !! p) as [v |] eqn:Hp.
  - assert (Hin : p ∈ dom inputs') by (rewrite Hdom; apply elem_of_dom; eauto).
    apply elem_of_dom in Hin as [v' Hv']. rewrite Hv'. exact IH.
  - assert (Hout : p ∉ dom inputs') by (rewrite Hdom; apply not_elem_of_dom, Hp).
    apply not_elem_of_dom in Hout. rewrite Hout. reflexivity.
Qed.

(** X1: a tool name that is not in the registry gives validation_error with
    the message "Tool '<name>' not found in registry" and no data; neither
    the permission check nor the execution capability is called. *)
Theorem unknown_tool_is_validation_error
    (impl : gmap string ToolSpec -> string -> gmap string pyvalue -> ToolContext -> coroutine)
    (reg : gmap string ToolSpec) (tool_name : string)
    (inputs : gmap string pyvalue) (context : ToolContext) (w : World) :
  reg !! tool_name = None ->
  exists r w',
    execute_tool_with impl reg tool_name inputs context w = (Value r, w') /\
    status r = VALIDATION_ERROR /\
    error r = Some ("Tool '" +:+ tool_name +:+ "' not found in registry") /\
    data r = None /\
    count_events is_permission_check (new_events w w') = 0%nat /\
    count_events is_impl_call (new_events w w') = 0%nat.
Proof.
  intros Hreg. eexists _, _. split.
  - apply execute_tool_invalid. unfold validate_tool_input. rewrite Hreg. reflexivity.
  - rewrite new_events_app. repeat split.
Qed.

Lemma unknown_tool_is_validation_error_witness :
  exists r w',
    execute_tool sample_registry "translate" {["text" := PyStr "bonjour"]}
      (sample_context "admin") w0 = (Value r, w') /\
    error r = Some "Tool 'translate' not found in registry".
Proof.
  destruct (unknown_tool_is_validation_error _execute_tool_impl sample_registry
              "translate" {["text" := PyStr "bonjour"]} (sample_context "admin") w0
              eq_refl)
    as (r & w' & Hrun & _ & Herr & _).
  exists r, w'. split; [exact Hrun | exact Herr].
Defined.

(** X2: [validate_tool_input] accepts exactly the registered tools whose
    required parameters are all keys of the input bag, and a rejection always
    carries a message.  The verdict depends on the set of keys of the bag
    only, not on the values stored under them, and keys beyond the required
    ones never make an accepted bag rejected. *)
Theorem validate_tool_input_by_keys (reg : gmap string ToolSpec) (tool_name : string)
    (inputs : gmap string pyvalue) :
  (validate_tool_input reg tool_name inputs = (true, None) <->
   exists tool_spec,
     reg !! tool_name = Some tool_spec /\
     Forall (fun q => is_Some (inputs !! q))
            (default [] (spec_required_params tool_spec))) /\
  (validate_tool_input reg tool_name inputs = (true, None) \/
   exists msg, validate_tool_input reg tool_name inputs = (false, Some msg)) /\
  (forall inputs' : gmap string pyvalue,
     dom inputs' = dom inputs ->
     validate_tool_input reg tool_name inputs' =
     validate_tool_input reg tool_name inputs) /\
  (forall inputs' : gmap string pyvalue,
     inputs ⊆ inputs' ->
     validate_tool_input reg tool_name inputs = (true, None) ->
     validate_tool_input reg tool_name inputs' = (true, None)).
Proof.
  unfold validate_tool_input. destruct (reg !! tool_name) as [sp |] eqn:Hreg.
  - split; [| split; [| split]].
    + rewrite validate_required_passes. split.
      * intros H. exists sp. auto.
      * intros (sp' & Heq & H). injection Heq as <-. exact H.
    + apply validate_required_shape.
    + intros inputs' Hdom. apply validate_required_dom, Hdom.
    + intros inputs' Hsub. rewrite !validate_required_passes.
      intros Hall. eapply Forall_impl; [exact Hall |].
      intros q [v Hq]. exists v.
      exact (lookup_weaken _ _ _ _ Hq Hsub).
  - split; [| split; [| split]].
    + split; [discriminate | intros (sp & Heq & _); discriminate].
    + right. eauto.
    + reflexivity.
    + discriminate.
Qed.

(** X3: an invalid call is answered without looking at the context: two
    callers, whatever their tiers and tenants, get the same status, message
    and data for the same tool name and input bag when validation fails, so
    the existence of a tool and its first missing parameter are visible to
    every caller. *)
Theorem invalid_call_ignores_context
    (impl : gmap string ToolSpec -> string -> gmap string pyvalue -> ToolContext -> coroutine)
    (reg : gmap string ToolSpec) (tool_name : string)
    (inputs : gmap string pyvalue) (c1 c2 : ToolContext) (w1 w2 : World) :
  (validate_tool_input reg tool_name inputs).1 = false ->
  exists r1 w1' r2 w2',
    execute_tool_with impl reg tool_name inputs c1 w1 = (Value r1, w1') /\
    execute_tool_with impl reg tool_name inputs c2 w2 = (Value r2, w2') /\
    status r1 = VALIDATION_ERROR /\
    status r2 = status r1 /\ error r2 = error r1 /\ data r2 = data r1.
Proof.
  intros Hv. destruct (validate_tool_input reg tool_name inputs) as [ok msg] eqn:Hval.
  simpl in Hv. subst ok.
  eexists _, _, _, _. split; [| split].
  - apply (execute_tool_invalid impl reg tool_name inputs c1 w1 msg Hval).
  - apply (execute_tool_invalid impl reg tool_name inputs c2 w2 msg Hval).
  - repeat split.
Qed.

Lemma invalid_call_ignores_context_witness :
  exists r1 w1' r2 w2',
    execute_tool sample_registry "search" ∅ (sample_context "guest") w0
      = (Value r1, w1') /\
    execute_tool sample_registry "search" ∅ (sample_context "admin") w0
      = (Value r2, w2') /\
    error r2 = error r1.
Proof.
  assert (Hv : (validate_tool_input sample_registry "search"
                  (∅ : gmap string pyvalue)).1 = false) by (vm_compute; reflexivity).
  destruct (invalid_call_ignores_context _execute_tool_impl sample_registry "search" ∅
              (sample_context "guest") (sample_context "admin") w0 w0 Hv)
    as (r1 & w1' & r2 & w2' & Hrun1 & Hrun2 & _ & _ & Herr & _).
  exists r1, w1', r2, w2'. split; [exact Hrun1 | split; [exact Hrun2 | exact Herr]].
Defined.

(** ** Tiers *)

Lemma required_rank_cases (required_permission : option string) :
  let r := required_rank (default "user" required_permission) in
  (required_permission = Some "guest" /\ r = 0) \/
  (required_permission = Some "admin" /\ r = 2) \/
  (required_permission <> Some "guest" /\ required_permission <> Some "admin" /\ r = 1).
Proof.
  unfold required_rank. destruct required_permission as [s |]; simpl.
  - rewrite permission_levels_lookup.
    repeat case_decide; subst; simpl; auto;
      right; right; repeat split; congruence.
  - right. right. repeat split; discriminate.
Qed.

(** X4: what each caller tier may use.  A caller of tier "admin" is
    authorized for every registered tool, whatever its required permission
    says; a caller of tier "user" (the default of [ToolContext]) for every
    registered tool but those requiring "admin"; a caller of rank 0, that is
    "guest" or any unrecognized tier, only for the tools whose
    required permission is "guest" in so many words: a tool without the key
    or with an unrecognized value requires "user". *)
Theorem authorization_by_caller_tier (reg : gmap string ToolSpec) (tool_name : string)
    (tool_spec : ToolSpec) (context : ToolContext) :
  reg !! tool_name = Some tool_spec ->
  (permission_level context = "admin" ->
     check_permissions reg tool_name context = true) /\
  (permission_level context = "user" ->
     (check_permissions reg tool_name context = true <->
      spec_required_permission tool_spec <> Some "admin")) /\
  (caller_rank (permission_level context) = 0 ->
     (check_permissions reg tool_name context = true <->
      spec_required_permission tool_spec = Some "guest")).
Proof.
  intros Hreg. rewrite (check_permissions_rank _ _ _ _ Hreg).
  destruct (required_rank_cases (spec_required_permission tool_spec))
    as [[Hg ->] | [[Ha ->] | (Hng & Hna & ->)]].
  - split; [intros ->; reflexivity |]. split.
    + intros ->. split; [intros _; congruence | reflexivity].
    + intros ->. split; [intros _; exact Hg | reflexivity].
  - split; [intros ->; reflexivity |]. split.
    + intros ->. split; [discriminate | intros H; contradiction].
    + intros ->. split; [discriminate | congruence].
  - split; [intros ->; reflexivity |]. split.
    + intros ->. split; [intros _; exact Hna | reflexivity].
    + intros ->. split; [discriminate | intros H; contradiction].
Qed.

Lemma authorization_by_caller_tier_witness :
  check_permissions sample_registry "purge" (sample_context "admin") = true /\
  check_permissions sample_registry "purge" (sample_context "user") <> true /\
  check_permissions sample_registry "search" (sample_context "root") <> true.
Proof.
  split; [| split].
  - exact (proj1 (authorization_by_caller_tier sample_registry "purge" admin_spec
                    (sample_context "admin") eq_refl) eq_refl).
  - intros H.
    apply (proj1 (proj2 (authorization_by_caller_tier sample_registry "purge"
             admin_spec (sample_context "user") eq_refl)) eq_refl) in H.
    apply H. reflexivity.
  - intros H.
    apply (proj2 (proj2 (authorization_by_caller_tier sample_registry "search"
             search_spec (sample_context "root") eq_refl)) eq_refl) in H.
    discriminate H.
Defined.

(** ** The pipeline, path by path *)

Lemma validate_tool_input_shape (reg : gmap string ToolSpec) (tool_name : string)
    (inputs : gmap string pyvalue) :
  validate_tool_input reg tool_name inputs = (true, None) \/
  exists msg, validate_tool_input reg tool_name inputs = (false, Some msg).
Proof.
  unfold validate_tool_input. destruct (reg !! tool_name).
  - apply validate_required_shape.
  - right. eauto.
Qed.

(** The three paths again, each with the verdicts that select it. *)
Lemma execute_tool_cases
    (impl : gmap string ToolSpec -> string -> gmap string pyvalue -> ToolContext -> coroutine)
    (reg : gmap string ToolSpec) (tool_name : string)
    (inputs : gmap string pyvalue) (context : ToolContext) (w : World) :
  let tenant := tenant_id context in
  let awaited := wait_for (impl reg tool_name inputs context)
                   (max_execution_time context) (at_dispatch tool_name context w) in
  exists r t l,
    execute_tool_with impl reg tool_name inputs context w =
      (Value r, {| now := t; log := log w ++ l |}) /\
    ((exists msg, validate_tool_input reg tool_name inputs = (false, Some msg) /\
        r = error_result VALIDATION_ERROR msg 0 /\
        l = [active_tools_inc tool_name tenant;
             call_validate_tool_input tool_name;
             tool_execution_counter_inc tool_name "validation_error" tenant;
             tool_execution_duration_observe tool_name tenant 0;
             active_tools_dec tool_name tenant]) \/
     (validate_tool_input reg tool_name inputs = (true, None) /\
        check_permissions reg tool_name context = false /\
        r = error_result PERMISSION_DENIED
              ("Insufficient permissions for tool '" +:+ tool_name +:+ "'") 0 /\
        l = [active_tools_inc tool_name tenant;
             call_validate_tool_input tool_name;
             call_check_permissions tool_name;
             tool_execution_counter_inc tool_name "permission_denied" tenant;
             tool_execution_duration_observe tool_name tenant 0;
             active_tools_dec tool_name tenant]) \/
     (validate_tool_input reg tool_name inputs = (true, None) /\
        check_permissions reg tool_name context = true /\
        r = classify tool_name context (now w) awaited.1 (now awaited.2) /\
        l = [active_tools_inc tool_name tenant;
             call_validate_tool_input tool_name;
             call_check_permissions tool_name;
             call_execute_tool_impl tool_name;
             active_tools_dec tool_name tenant;
             tool_execution_counter_inc tool_name (status_value (status r)) tenant;
             tool_execution_duration_observe tool_name tenant (execution_time_ms r)])).
Proof.
  intros tenant awaited.
  destruct (validate_tool_input_shape reg tool_name inputs) as [Hv | [msg Hv]].
  - destruct (check_permissions reg tool_name context) eqn:Hp.
    + eexists _, _, _. split.
      * apply (execute_tool_dispatched impl reg tool_name inputs context w None Hv Hp).
      * right. right. repeat split; (assumption || reflexivity).
    + eexists _, _, _. split.
      * apply (execute_tool_denied impl reg tool_name inputs context w None Hv Hp).
      * right. left. repeat split; (assumption || reflexivity).
  - eexists _, _, _. split.
    + apply (execute_tool_invalid impl reg tool_name inputs context w (Some msg) Hv).
    + left. exists msg. repeat split; (assumption || reflexivity).
Qed.

Lemma active_tools_value_app (tool_name tenant : string) (l1 l2 : list event) :
  active_tools_value tool_name tenant (l1 ++ l2) =
  active_tools_value tool_name tenant l1 + active_tools_value tool_name tenant l2.
Proof.
  unfold active_tools_value. induction l1 as [| e l1 IH]; simpl; [reflexivity |].
  rewrite IH. lia.
Qed.




(** ** The listing and the calls *)

Lemma listed_name_iff (reg : gmap string ToolSpec) (context : ToolContext)
    (tool_name : string) :
  tool_name ∈ name <$> get_available_tools reg context <->
  check_permissions reg tool_name context = true.
Proof.
  rewrite list_elem_of_fmap. split.
  - intros (s & -> & Hin).
    apply elem_of_get_available_tools in Hin as (n & sp & _ & Hp & ->). exact Hp.
  - intros Hp. unfold check_permissions in Hp.
    destruct (reg !! tool_name) as [sp |] eqn:Hreg; [| discriminate].
    exists (tool_summary tool_name sp). split; [reflexivity |].
    apply elem_of_get_available_tools. exists tool_name, sp.
    repeat split; [exact Hreg |]. unfold check_permissions. rewrite Hreg. exact Hp.
Qed.



Lemma listing_length_le (reg : gmap string ToolSpec) (context : ToolContext)
    (items : list (string * ToolSpec)) :
  (length (flat_map (fun item : string * ToolSpec =>
                       if check_permissions reg item.1 context
                       then [tool_summary item.1 item.2] else []) items)
     <= length items)%nat.
Proof.
  induction items as [| [n sp] rest IH]; simpl; [lia |].
  destruct (check_permissions reg n context); simpl; lia.
Qed.

Lemma listing_length_all (reg : gmap string ToolSpec) (context : ToolContext)
    (items : list (string * ToolSpec)) :
  (forall item, item ∈ items -> check_permissions reg item.1 context = true) ->
  length (flat_map (fun item : string * ToolSpec =>
                      if check_permissions reg item.1 context
                      then [tool_summary item.1 item.2] else []) items)
    = length items.
Proof.
  induction items as [| [n sp] rest IH]; simpl; intros Hall; [reflexivity |].
  pose proof (Hall (n, sp) (list_elem_of_here _ _)) as Hhead. simpl in Hhead.
  rewrite Hhead. simpl.
  rewrite IH; [reflexivity |]. intros item Hin. apply Hall. right. exact Hin.
Qed.

(** X12: the listing never has more entries than [get_tool_health] reports
    as [tools_loaded], and for a caller of tier "admin" it has exactly that
    many: an admin sees the whole registry. *)
Theorem listing_size (utcnow : string) (self : ToolAdapter) (context : ToolContext) :
  (length (get_available_tools (tool_registry self) context)
     <= tools_loaded (get_tool_health utcnow self))%nat /\
  (permission_level context = "admin" ->
   length (get_available_tools (tool_registry self) context)
     = tools_loaded (get_tool_health utcnow self)).
Proof.
  unfold get_tool_health, get_available_tools. simpl.
  rewrite <- length_map_to_list. split.
  - apply listing_length_le.
  - intros Hadmin. apply listing_length_all. intros [n sp] Hin. simpl.
    apply elem_of_map_to_list in Hin.
    rewrite (check_permissions_rank _ _ _ _ Hin), Hadmin.
    destruct (required_rank_cases (spec_required_permission sp))
      as [[_ ->] | [[_ ->] | (_ & _ & ->)]]; reflexivity.
Qed.

Lemma listing_size_witness :
  length (get_available_tools sample_registry (sample_context "admin")) = 4%nat.
Proof.
  exact (proj2 (listing_size ""
                  {| registry_path := default_registry_path;
                     tool_registry := sample_registry |}
                  (sample_context "admin")) eq_refl).
Defined.

(** ** Loading and reloading the registry *)

Lemma get_available_tools_empty (context : ToolContext) :
  get_available_tools ∅ context = [].
Proof. unfold get_available_tools. rewrite map_to_list_empty. reflexivity. Qed.

(** X13: a load that fails, or that finds no 'tools' key in the file,
    leaves the adapter with an empty registry, also when tools were loaded
    before: the earlier registry is not kept.  From then on the health report
    still says "healthy" with zero tools loaded, every listing is empty and
    every call ends in validation_error with "not found". *)
Theorem failed_load_empties_registry
    (impl : gmap string ToolSpec -> string -> gmap string pyvalue -> ToolContext -> coroutine)
    (registry_file : registry_files) (self : ToolAdapter) :
  (exists e, registry_file (registry_path self) = Raise e) \/
  registry_file (registry_path self) = Value None ->
  let reloaded := reload_registry registry_file self in
  tool_registry reloaded = ∅ /\
  registry_path reloaded = registry_path self /\
  (forall utcnow,
     health_status (get_tool_health utcnow reloaded) = "healthy" /\
     tools_loaded (get_tool_health utcnow reloaded) = 0%nat) /\
  (forall context, get_available_tools (tool_registry reloaded) context = []) /\
  (forall tool_name inputs context w,
     exists r w',
       execute_tool_with impl (tool_registry reloaded) tool_name inputs context w
         = (Value r, w') /\
       status r = VALIDATION_ERROR /\
       error r = Some ("Tool '" +:+ tool_name +:+ "' not found in registry")).
Proof.
  intros Hload reloaded.
  assert (Hempty : tool_registry reloaded = ∅).
  { unfold reloaded, reload_registry, _load_registry.
    destruct Hload as [[e ->] | ->]; reflexivity. }
  split; [exact Hempty |]. split.
  - unfold reloaded, reload_registry, _load_registry.
    destruct (registry_file (registry_path self)); reflexivity.
  - rewrite Hempty. split; [| split].
    + intros utcnow. unfold get_tool_health. simpl. rewrite Hempty.
      split; [reflexivity | apply map_size_empty].
    + apply get_available_tools_empty.
    + intros tool_name inputs context w. eexists _, _. split.
      * apply execute_tool_invalid. unfold validate_tool_input.
        rewrite lookup_empty. reflexivity.
      * split; reflexivity.
Qed.

Lemma failed_load_empties_registry_witness :
  let broken : registry_files :=
    fun _ => Raise (mkExn OtherException "[Errno 2] No such file or directory") in
  let self := {| registry_path := default_registry_path;
                 tool_registry := sample_registry |} in
  tool_registry (reload_registry broken self) = ∅ /\
  get_available_tools (tool_registry (reload_registry broken self))
    (sample_context "admin") = [].
Proof.
  intros broken self.
  destruct (failed_load_empties_registry _execute_tool_impl broken self)
    as (Hempty & _ & _ & Hlist & _).
  - left. eexists. reflexivity.
  - split; [exact Hempty | apply Hlist].
Defined.

(** ** The failures of the module's own tools *)

Lemma _execute_tool_impl_recognized (reg : gmap string ToolSpec) (tool_name : string)
    (tool_spec : ToolSpec) (inputs : gmap string pyvalue) (context : ToolContext) :
  reg !! tool_name = Some tool_spec ->
  default "unknown" (spec_type tool_spec) ∈ ["web_search"; "asr"; "tts"; "echo"] ->
  let c := _execute_tool_impl reg tool_name inputs context in
  (exists v, c = CoReturn v) \/ (exists ms v, c = CoSleep ms (CoReturn v)).
Proof.
  intros Hreg Hty. unfold _execute_tool_impl. rewrite Hreg.
  repeat (apply elem_of_cons in Hty as [Hty | Hty]);
    [| | | | apply elem_of_nil in Hty; contradiction];
    rewrite Hty; simpl; eauto.
Qed.

Lemma validate_tool_input_registered (reg : gmap string ToolSpec) (tool_name : string)
    (inputs : gmap string pyvalue) :
  validate_tool_input reg tool_name inputs = (true, None) ->
  exists tool_spec, reg !! tool_name = Some tool_spec.
Proof.
  unfold validate_tool_input. destruct (reg !! tool_name); [eauto | discriminate].
Qed.

(** * The pipeline with every exit *)

Lemma float_int_limit_positive : 0 < float_int_limit.
Proof. vm_compute. reflexivity. Qed.

Lemma float_limit_below_str_limit : float_int_limit < int_str_limit.
Proof. vm_compute. reflexivity. Qed.

(** ** Awaiting a task *)

Lemma full_run_until_log (c : Full.task) :
  forall budget w, log (Full.run_until c budget w).2 = log w.
Proof.
  induction c as [v | e | ms k IH]; intros budget w; simpl; try reflexivity.
  destruct (ms <? budget); unfold Full.bind, Full.lift, advance, Full.raise; simpl.
  - rewrite IH. reflexivity.
  - reflexivity.
Qed.

Lemma full_wait_for_log (c : Full.task) (timeout : Z) (w : World) :
  log (Full.wait_for c timeout w).2 = log w.
Proof.
  unfold Full.wait_for. destruct (timeout <=? 0); [reflexivity |].
  destruct (float_int_limit <=? timeout); [reflexivity | apply full_run_until_log].
Qed.

Lemma full_wait_for_expired (c : Full.task) (timeout : Z) (w : World) :
  timeout <= 0 ->
  Full.wait_for c timeout w = (Full.Raises (Full.Exc (mkExn TimeoutError "")), w).
Proof.
  intros Ht. unfold Full.wait_for. destruct (Z.leb_spec timeout 0); [reflexivity | lia].
Qed.

Lemma full_wait_for_overflow (c : Full.task) (timeout : Z) (w : World) :
  float_int_limit <= timeout ->
  Full.wait_for c timeout w = (Full.Raises (Full.Exc overflow_error), w).
Proof.
  intros Ht. pose proof float_int_limit_positive. unfold Full.wait_for.
  destruct (Z.leb_spec timeout 0); [lia |].
  destruct (Z.leb_spec float_int_limit timeout); [reflexivity | lia].
Qed.

Lemma full_wait_for_return (v : pyvalue) (timeout : Z) (w : World) :
  0 < timeout < float_int_limit ->
  Full.wait_for (Full.Return v) timeout w = (Full.Returns v, w).
Proof.
  intros Ht. unfold Full.wait_for.
  destruct (Z.leb_spec timeout 0); [lia |].
  destruct (Z.leb_spec float_int_limit timeout); [lia | reflexivity].
Qed.

Lemma full_wait_for_throw (e : Full.pyexn) (timeout : Z) (w : World) :
  0 < timeout < float_int_limit ->
  Full.wait_for (Full.Throw e) timeout w = (Full.Raises e, w).
Proof.
  intros Ht. unfold Full.wait_for.
  destruct (Z.leb_spec timeout 0); [lia |].
  destruct (Z.leb_spec float_int_limit timeout); [lia | reflexivity].
Qed.

Lemma full_wait_for_sleep_return (ms : Z) (v : pyvalue) (timeout : Z) (w : World) :
  0 <= ms -> ms < timeout * 1000 -> timeout < float_int_limit ->
  Full.wait_for (Full.Sleep ms (Full.Return v)) timeout w =
    (Full.Returns v, {| now := now w + ms; log := log w |}).
Proof.
  intros Hms Hlt Hfloat. unfold Full.wait_for.
  destruct (Z.leb_spec timeout 0); [lia |].
  destruct (Z.leb_spec float_int_limit timeout); [lia |]. simpl.
  destruct (Z.ltb_spec ms (timeout * 1000)); [| lia].
  unfold Full.bind, Full.lift, advance, Full.ret. simpl.
  rewrite Z.max_r by lia. reflexivity.
Qed.

(** ** The ways through the pipeline *)

Section FullRuns.
Variable impl :
  gmap string ToolSpec -> string -> gmap string pyvalue -> ToolContext -> Full.task.
Variable reg : gmap string ToolSpec.
Variables (tool_name : string) (inputs : gmap string pyvalue) (context : ToolContext).
Variable w : World.

Let tenant := tenant_id context.
Let awaited := Full.wait_for (impl reg tool_name inputs context)
                 (max_execution_time context)
                 (at_dispatch tool_name context w).

Lemma full_execute_tool_invalid (validation_error : option string) :
  validate_tool_input reg tool_name inputs = (false, validation_error) ->
  Full.execute_tool_with impl reg tool_name inputs context w =
    (Full.Returns {| status := VALIDATION_ERROR; data := None;
                     error := validation_error; execution_time_ms := 0;
                     token_usage := []; result_metadata := [] |},
     {| now := now w;
        log := log w ++ [active_tools_inc tool_name tenant;
                         call_validate_tool_input tool_name;
                         tool_execution_counter_inc tool_name "validation_error" tenant;
                         tool_execution_duration_observe tool_name tenant 0;
                         active_tools_dec tool_name tenant] |}).
Proof.
  intros Hv. unfold Full.execute_tool_with.
  unfold Full.bind, Full.try_finally, Full.lift, time_time, emit, Full.ret,
    _record_execution, bind. simpl. rewrite Hv. simpl.
  rewrite Z.sub_diag, <- !app_assoc. reflexivity.
Qed.

Lemma full_execute_tool_denied (x : option string) :
  validate_tool_input reg tool_name inputs = (true, x) ->
  check_permissions reg tool_name context = false ->
  Full.execute_tool_with impl reg tool_name inputs context w =
    (Full.Returns (error_result PERMISSION_DENIED
                     ("Insufficient permissions for tool '" +:+ tool_name +:+ "'") 0),
     {| now := now w;
        log := log w ++ [active_tools_inc tool_name tenant;
                         call_validate_tool_input tool_name;
                         call_check_permissions tool_name;
                         tool_execution_counter_inc tool_name "permission_denied" tenant;
                         tool_execution_duration_observe tool_name tenant 0;
                         active_tools_dec tool_name tenant] |}).
Proof.
  intros Hv Hp. unfold Full.execute_tool_with.
  unfold Full.bind, Full.try_finally, Full.lift, time_time, emit, Full.ret,
    _record_execution, bind. simpl. rewrite Hv. simpl. rewrite Hp. simpl.
  rewrite Z.sub_diag, <- !app_assoc. reflexivity.
Qed.

Lemma full_execute_tool_dispatched (x : option string) :
  validate_tool_input reg tool_name inputs = (true, x) ->
  check_permissions reg tool_name context = true ->
  Full.execute_tool_with impl reg tool_name inputs context w =
    match Full.settle tool_name context (now w) awaited.1 (now awaited.2) with
    | Full.Returns result =>
        (Full.Returns result,
         {| now := now awaited.2;
            log := log w ++ [active_tools_inc tool_name tenant;
                             call_validate_tool_input tool_name;
                             call_check_permissions tool_name;
                             call_execute_tool_impl tool_name;
                             active_tools_dec tool_name tenant;
                             tool_execution_counter_inc tool_name
                               (status_value (status result)) tenant;
                             tool_execution_duration_observe tool_name tenant
                               (execution_time_ms result)] |})
    | Full.Raises e =>
        (Full.Raises e,
         {| now := now awaited.2;
            log := log w ++ [active_tools_inc tool_name tenant;
                             call_validate_tool_input tool_name;
                             call_check_permissions tool_name;
                             call_execute_tool_impl tool_name;
                             active_tools_dec tool_name tenant] |})
    end.
Proof.
  intros Hv Hp.
  pose proof (full_wait_for_log (impl reg tool_name inputs context)
                (max_execution_time context) (at_dispatch tool_name context w)) as Hlog.
  fold awaited in Hlog.
  unfold Full.execute_tool_with, Full.dispatch, Full.try_except.
  unfold Full.bind, Full.try_finally, Full.lift, time_time, emit, Full.ret,
    _record_execution, bind.
  simpl. rewrite Hv. simpl. rewrite Hp. simpl. rewrite <- !app_assoc. simpl.
  fold (at_dispatch tool_name context w). fold awaited. fold tenant.
  destruct awaited as [[v | [e | text]] w2]; simpl in *.
  - rewrite Hlog. unfold at_dispatch. simpl. rewrite <- !app_assoc. reflexivity.
  - destruct (decide (exn_cls e = TimeoutError)); simpl.
    + unfold Full.int_str.
      destruct (int_str_limit <=? Z.abs (max_execution_time context)); simpl;
        rewrite Hlog; unfold at_dispatch; simpl; rewrite <- !app_assoc; reflexivity.
    + rewrite Hlog. unfold at_dispatch. simpl. rewrite <- !app_assoc. reflexivity.
  - rewrite Hlog. unfold at_dispatch. simpl. rewrite <- !app_assoc. reflexivity.
Qed.
End FullRuns.

Lemma full_settle_raises (tool_name : string) (context : ToolContext) (start_time : Z)
    (o : Full.exit pyvalue) (t : Z) (e : Full.pyexn) :
  Full.settle tool_name context start_time o t = Full.Raises e <->
  (exists text, o = Full.Raises (Full.BaseExc text) /\ e = Full.BaseExc text) \/
  (exists x, o = Full.Raises (Full.Exc x) /\ exn_cls x = TimeoutError /\
             int_str_limit <= Z.abs (max_execution_time context) /\
             e = Full.Exc int_str_error).
Proof.
  unfold Full.settle. destruct o as [v | [x | text]].
  - split; [discriminate | intros [(text & H & _) | (x & H & _)]; discriminate].
  - destruct (decide (exn_cls x = TimeoutError)) as [Hcls | Hcls].
    + destruct (Z.leb_spec int_str_limit (Z.abs (max_execution_time context))).
      * split.
        -- intros H0. injection H0 as <-. right. exists x. auto.
        -- intros [(text & H0 & _) | (x' & _ & _ & _ & ->)]; [discriminate | reflexivity].
      * split; [discriminate |].
        intros [(text & H0 & _) | (x' & _ & _ & Hbig & _)]; [discriminate | lia].
    + split; [discriminate |].
      intros [(text & H0 & _) | (x' & H0 & Hcls' & _)]; [discriminate |].
      injection H0 as <-. contradiction.
  - split.
    + intros H0. injection H0 as <-. left. eauto.
    + intros [(text' & H0 & ->) | (x & H0 & _)]; [| discriminate].
      injection H0 as <-. reflexivity.
Qed.

(** Every call takes one of three paths; the third ends in a result or in
    an exception, as [Full.settle] says. *)
Lemma full_execute_tool_cases
    (impl : gmap string ToolSpec -> string -> gmap string pyvalue -> ToolContext -> Full.task)
    (reg : gmap string ToolSpec) (tool_name : string)
    (inputs : gmap string pyvalue) (context : ToolContext) (w : World) :
  let tenant := tenant_id context in
  let awaited := Full.wait_for (impl reg tool_name inputs context)
                   (max_execution_time context) (at_dispatch tool_name context w) in
  exists o t l,
    Full.execute_tool_with impl reg tool_name inputs context w =
      (o, {| now := t; log := log w ++ l |}) /\
    ((exists msg, validate_tool_input reg tool_name inputs = (false, Some msg) /\
        o = Full.Returns (error_result VALIDATION_ERROR msg 0) /\
        l = [active_tools_inc tool_name tenant;
             call_validate_tool_input tool_name;
             tool_execution_counter_inc tool_name "validation_error" tenant;
             tool_execution_duration_observe tool_name tenant 0;
             active_tools_dec tool_name tenant]) \/
     (validate_tool_input reg tool_name inputs = (true, None) /\
        check_permissions reg tool_name context = false /\
        o = Full.Returns (error_result PERMISSION_DENIED
              ("Insufficient permissions for tool '" +:+ tool_name +:+ "'") 0) /\
        l = [active_tools_inc tool_name tenant;
             call_validate_tool_input tool_name;
             call_check_permissions tool_name;
             tool_execution_counter_inc tool_name "permission_denied" tenant;
             tool_execution_duration_observe tool_name tenant 0;
             active_tools_dec tool_name tenant]) \/
     (validate_tool_input reg tool_name inputs = (true, None) /\
        check_permissions reg tool_name context = true /\
        o = Full.settle tool_name context (now w) awaited.1 (now awaited.2) /\
        l = ([active_tools_inc tool_name tenant;
              call_validate_tool_input tool_name;
              call_check_permissions tool_name;
              call_execute_tool_impl tool_name;
              active_tools_dec tool_name tenant] ++
             match o with
             | Full.Returns r =>
                 [tool_execution_counter_inc tool_name (status_value (status r)) tenant;
                  tool_execution_duration_observe tool_name tenant (execution_time_ms r)]
             | Full.Raises _ => []
             end)%list)).
Proof.
  intros tenant awaited.
  destruct (validate_tool_input_shape reg tool_name inputs) as [Hv | [msg Hv]].
  - destruct (check_permissions reg tool_name context) eqn:Hp.
    + pose proof (full_execute_tool_dispatched impl reg tool_name inputs context w
                    None Hv Hp) as Hrun.
      fold awaited in Hrun.
      destruct (Full.settle tool_name context (now w) awaited.1 (now awaited.2))
        as [r | e] eqn:Hs;
        eexists _, _, _; (split; [exact Hrun |]); right; right;
        repeat split; (assumption || reflexivity).
    + eexists _, _, _. split.
      * apply (full_execute_tool_denied impl reg tool_name inputs context w None Hv Hp).
      * right. left. repeat split; (assumption || reflexivity).
  - eexists _, _, _. split.
    + apply (full_execute_tool_invalid impl reg tool_name inputs context w (Some msg) Hv).
    + left. exists msg. repeat split; (assumption || reflexivity).
Qed.

(** C2: at the failing inputs.  On the successful echo call the gauge is
    decremented before the counter and the histogram are touched, where the
    two rejection paths record first; and when the awaited call is cancelled
    the exception leaves [execute_tool] after the decrement with nothing
    recorded at all. *)
Theorem decrement_before_recording_or_without_it :
  let inputs : gmap string pyvalue := {["message" := PyStr "hi"]} in
  let ok := Full.execute_tool sample_registry "echo" inputs (sample_context "guest") w0 in
  let cancelled :=
    Full.execute_tool_with (fun _ _ _ _ => Full.Throw (Full.BaseExc ""))
      sample_registry "echo" inputs (sample_context "guest") w0 in
  let rejected_call :=
    Full.execute_tool sample_registry "purge" inputs (sample_context "guest") w0 in
  (new_events w0 ok.2 =
     [active_tools_inc "echo" "acme"; call_validate_tool_input "echo";
      call_check_permissions "echo"; call_execute_tool_impl "echo";
      active_tools_dec "echo" "acme";
      tool_execution_counter_inc "echo" "success" "acme";
      tool_execution_duration_observe "echo" "acme" 0] /\
   precedesb is_recording is_gauge_dec (new_events w0 ok.2) = false) /\
  (cancelled.1 = Full.Raises (Full.BaseExc "") /\
   new_events w0 cancelled.2 =
     [active_tools_inc "echo" "acme"; call_validate_tool_input "echo";
      call_check_permissions "echo"; call_execute_tool_impl "echo";
      active_tools_dec "echo" "acme"]) /\
  (new_events w0 rejected_call.2 =
     [active_tools_inc "purge" "acme"; call_validate_tool_input "purge";
      call_check_permissions "purge";
      tool_execution_counter_inc "purge" "permission_denied" "acme";
      tool_execution_duration_observe "purge" "acme" 0;
      active_tools_dec "purge" "acme"] /\
   precedesb is_recording is_gauge_dec (new_events w0 rejected_call.2) = true).
Proof. vm_compute. repeat split; reflexivity. Qed.

(** C5, as the claim states it, fails: with a [max_execution_time] of
    [-(10**4300)] the echo call passes both checks, the wait times out at
    once, and the text of the timeout message cannot be built; the
    [ValueError] leaves [execute_tool], after the gauge decrement and with
    nothing recorded.  A cancellation of the awaited call leaves it too. *)
Lemma execute_tool_can_raise :
  let inputs : gmap string pyvalue := {["message" := PyStr "hi"]} in
  let context := with_max_execution_time (- int_str_limit) (sample_context "guest") in
  let run := Full.execute_tool sample_registry "echo" inputs context w0 in
  let cancelled :=
    Full.execute_tool_with (fun _ _ _ _ => Full.Throw (Full.BaseExc ""))
      sample_registry "echo" inputs (sample_context "guest") w0 in
  run.1 = Full.Raises (Full.Exc int_str_error) /\
  new_events w0 run.2 =
    [active_tools_inc "echo" "acme"; call_validate_tool_input "echo";
     call_check_permissions "echo"; call_execute_tool_impl "echo";
     active_tools_dec "echo" "acme"] /\
  cancelled.1 = Full.Raises (Full.BaseExc "").
Proof. vm_compute. repeat split; reflexivity. Qed.

Lemma full_execute_tool_safe_eq
    (impl : gmap string ToolSpec -> string -> gmap string pyvalue -> ToolContext -> Full.task)
    (got : Full.exit ToolAdapter) (tool_name : string)
    (inputs : gmap string pyvalue) (context : ToolContext) (w : World) :
  Full.execute_tool_safe_with impl got tool_name inputs context w =
    match got with
    | Full.Returns adapter =>
        match Full.execute_tool_with impl (tool_registry adapter) tool_name inputs
                context w with
        | (Full.Raises (Full.Exc x), w') =>
            (Full.Returns (error_result FAILURE ("Adapter error: " +:+ exn_str x) 0), w')
        | run => run
        end
    | Full.Raises (Full.Exc x) =>
        (Full.Returns (error_result FAILURE ("Adapter error: " +:+ exn_str x) 0), w)
    | Full.Raises (Full.BaseExc text) => (Full.Raises (Full.BaseExc text), w)
    end.
Proof.
  unfold Full.execute_tool_safe_with, Full.try_except, Full.bind.
  destruct got as [adapter | [x | text]]; try reflexivity.
  destruct (Full.execute_tool_with impl (tool_registry adapter) tool_name inputs
              context w) as [[r | [x | text]] w']; reflexivity.
Qed.

(** C5, amended: over a well-formed registry, [execute_tool_safe] never lets
    an exception that derives from [Exception] escape: what [get_adapter] or
    [execute_tool] raise of that kind comes back as a result of status
    failure with the text "Adapter error: ...".  [execute_tool] itself
    returns a result except in two cases, in which the exception leaves it
    after the gauge decrement and with nothing recorded: the awaited call
    raises an exception that does not derive from [Exception], or the wait
    times out and [max_execution_time] has more than 4300 digits, so that
    the timeout message cannot be built.  An exception of the awaited call
    that derives from [Exception] and is not a [TimeoutError] gives status
    failure with the text of the exception. *)
Theorem execute_tool_safe_is_the_error_boundary
    (impl : gmap string ToolSpec -> string -> gmap string pyvalue -> ToolContext -> Full.task)
    (got : Full.exit ToolAdapter) (reg : gmap string ToolSpec) (tool_name : string)
    (inputs : gmap string pyvalue) (context : ToolContext) (w : World) :
  let awaited := Full.wait_for (impl reg tool_name inputs context)
                   (max_execution_time context) (at_dispatch tool_name context w) in
  let run := Full.execute_tool_with impl reg tool_name inputs context w in
  let safe := Full.execute_tool_safe_with impl got tool_name inputs context w in
  (forall e,
     run.1 = Full.Raises e <->
     validate_tool_input reg tool_name inputs = (true, None) /\
     check_permissions reg tool_name context = true /\
     ((exists text, awaited.1 = Full.Raises (Full.BaseExc text) /\
                    e = Full.BaseExc text) \/
      (exists x, awaited.1 = Full.Raises (Full.Exc x) /\
                 exn_cls x = TimeoutError /\
                 int_str_limit <= Z.abs (max_execution_time context) /\
                 e = Full.Exc int_str_error))) /\
  (forall e,
     run.1 = Full.Raises e ->
     new_events w run.2 =
       [active_tools_inc tool_name (tenant_id context);
        call_validate_tool_input tool_name;
        call_check_permissions tool_name;
        call_execute_tool_impl tool_name;
        active_tools_dec tool_name (tenant_id context)]) /\
  (forall x,
     validate_tool_input reg tool_name inputs = (true, None) ->
     check_permissions reg tool_name context = true ->
     awaited.1 = Full.Raises (Full.Exc x) ->
     exn_cls x <> TimeoutError ->
     exists r,
       run.1 = Full.Returns r /\
       status r = FAILURE /\ error r = Some (exn_str x) /\ data r = None) /\
  (forall x, safe.1 <> Full.Raises (Full.Exc x)) /\
  (forall x,
     got = Full.Raises (Full.Exc x) ->
     safe = (Full.Returns
               (error_result FAILURE ("Adapter error: " +:+ exn_str x) 0), w)) /\
  (forall adapter,
     got = Full.Returns adapter -> tool_registry adapter = reg ->
     safe = match run with
            | (Full.Raises (Full.Exc x), w') =>
                (Full.Returns
                   (error_result FAILURE ("Adapter error: " +:+ exn_str x) 0), w')
            | _ => run
            end).
Proof.
  intros awaited run safe.
  destruct (full_execute_tool_cases impl reg tool_name inputs context w)
    as (o & t & l & Hrun & Hpath).
  fold run in Hrun. fold awaited in Hpath.
  split; [| split; [| split; [| split; [| split]]]].
  - intros e. rewrite Hrun. simpl.
    destruct Hpath as [(msg & Hv & -> & _) | [(Hv & Hp & -> & _) | (Hv & Hp & -> & _)]].
    + split; [discriminate | intros (Hv' & _); congruence].
    + split; [discriminate | intros (_ & Hp' & _); congruence].
    + rewrite full_settle_raises. split.
      * intros H. auto.
      * intros (_ & _ & H). exact H.
  - intros e. rewrite Hrun. simpl. intros Ho. subst o. rewrite new_events_app.
    destruct Hpath as [(msg & _ & Ho & _) | [(_ & _ & Ho & _) | (_ & _ & _ & ->)]];
      [discriminate Ho | discriminate Ho | reflexivity].
  - intros x Hv Hp Hawait Hcls. rewrite Hrun. simpl.
    destruct Hpath as [(msg & Hv' & _) | [(_ & Hp' & _) | (_ & _ & -> & _)]];
      [congruence | congruence |].
    rewrite Hawait. simpl.
    destruct (decide (exn_cls x = TimeoutError)); [contradiction |].
    eexists. split; [reflexivity |]. simpl.
    destruct (decide (exn_cls x = TimeoutError)); [contradiction |].
    repeat split.
  - intros x. unfold safe. rewrite full_execute_tool_safe_eq.
    destruct got as [adapter | [x' | text]]; simpl; try discriminate.
    destruct (Full.execute_tool_with impl (tool_registry adapter) tool_name inputs
                context w) as [[r | [x' | text]] w']; simpl; discriminate.
  - intros x ->. unfold safe. rewrite full_execute_tool_safe_eq. reflexivity.
  - intros adapter -> <-. unfold safe, run. rewrite full_execute_tool_safe_eq.
    destruct (Full.execute_tool_with impl (tool_registry adapter) tool_name inputs
                context w) as [[r | [x' | text]] w']; reflexivity.
Qed.

Lemma execute_tool_safe_is_the_error_boundary_witness :
  let impl := fun reg tool_name inputs context =>
                Full.of_coroutine (_execute_tool_impl reg tool_name inputs context) in
  let adapter := {| registry_path := default_registry_path;
                    tool_registry := sample_registry |} in
  let inputs : gmap string pyvalue := {["number" := PyStr "555"]} in
  (exists r,
     (Full.execute_tool sample_registry "fax" inputs (sample_context "guest") w0).1
       = Full.Returns r /\
     status r = FAILURE /\ error r = Some "Tool type 'fax' not implemented") /\
  (Full.execute_tool_safe_with impl (Full.Returns adapter) "fax" inputs
     (with_max_execution_time (- int_str_limit) (sample_context "guest")) w0).1
    = Full.Returns (error_result FAILURE ("Adapter error: " +:+ exn_str int_str_error) 0).
Proof.
  intros impl adapter inputs. split.
  - destruct (execute_tool_safe_is_the_error_boundary impl (Full.Returns adapter)
                sample_registry "fax" inputs (sample_context "guest") w0)
      as (_ & _ & Hfail & _).
    destruct (Hfail (mkExn NotImplementedError "Tool type 'fax' not implemented"))
      as (r & Hrun & Hst & Herr & _);
      [vm_compute; reflexivity | vm_compute; reflexivity | vm_compute; reflexivity
       | discriminate |].
    exists r. split; [exact Hrun | split; [exact Hst | exact Herr]].
  - destruct (execute_tool_safe_is_the_error_boundary impl (Full.Returns adapter)
                sample_registry "fax" inputs
                (with_max_execution_time (- int_str_limit) (sample_context "guest")) w0)
      as (_ & _ & _ & _ & _ & Hsafe).
    rewrite (Hsafe adapter eq_refl eq_refl). vm_compute. reflexivity.
Defined.

(** ** The echo scenario and the unimplemented types *)

(** C7, as the claim states it, fails for two guest contexts: with a
    [max_execution_time] of 0 the wait gives up before the echo coroutine
    runs and the call ends in timeout; with one of [10**309], which no float
    holds, [asyncio.wait_for] raises [OverflowError] and the call ends in
    failure. *)
Lemma echo_with_degenerate_deadline :
  let inputs : gmap string pyvalue := {["message" := PyStr "hi"]} in
  let run seconds :=
    Full.execute_tool sample_registry "echo" inputs
      (with_max_execution_time seconds (sample_context "guest")) w0 in
  sample_registry !! "echo" = Some echo_spec /\
  (run 0).1 = Full.Returns (error_result TIMEOUT "Tool execution timed out after 0s" 0) /\
  (run (10 ^ 309)).1 =
    Full.Returns (error_result FAILURE "int too large to convert to float" 0).
Proof. vm_compute. repeat split; reflexivity. Qed.

(** C7, amended: with "echo" registered as a tool of type "echo" with no
    required parameter and required permission "guest", a caller context of
    tier "guest" whose [max_execution_time] is positive and small enough for
    a float (below [2**1024 - 2**970]; the default is 30) calling
    [execute_tool("echo", {"message": "hi"}, ctx)] gets status success, data
    [{"echo": "hi"}] and a metadata mapping with the tool name and the
    session id. *)
Theorem echo_scenario (reg : gmap string ToolSpec) (tool_spec : ToolSpec)
    (context : ToolContext) (w : World) :
  reg !! "echo" = Some tool_spec ->
  spec_type tool_spec = Some "echo" ->
  default [] (spec_required_params tool_spec) = [] ->
  spec_required_permission tool_spec = Some "guest" ->
  permission_level context = "guest" ->
  0 < max_execution_time context < float_int_limit ->
  exists r w',
    Full.execute_tool reg "echo" {["message" := PyStr "hi"]} context w
      = (Full.Returns r, w') /\
    status r = SUCCESS /\
    data r = Some (PyDict [("echo", PyStr "hi")]) /\
    error r = None /\
    result_metadata r =
      [("tool_name", PyStr "echo"); ("session_id", PyStr (session_id context))].
Proof.
  intros Hreg Hty Hreq Hperm Hlevel Hdeadline.
  assert (Hv : validate_tool_input reg "echo" {["message" := PyStr "hi"]} = (true, None)).
  { apply (validate_tool_input_present _ _ _ _ Hreg). rewrite Hreq. constructor. }
  assert (Hp : check_permissions reg "echo" context = true).
  { rewrite (check_permissions_rank _ _ _ _ Hreg), Hperm, Hlevel. reflexivity. }
  unfold Full.execute_tool.
  rewrite (full_execute_tool_dispatched _ reg "echo" _ context w None Hv Hp).
  rewrite (_execute_tool_impl_echo _ _ _ _ _ Hreg Hty). simpl Full.of_coroutine.
  rewrite (full_wait_for_return _ _ _ Hdeadline). simpl.
  eexists _, _. split; [reflexivity |]. repeat split.
Qed.

Lemma echo_scenario_witness :
  exists r w',
    Full.execute_tool sample_registry "echo" {["message" := PyStr "hi"]}
      (sample_context "guest") w0 = (Full.Returns r, w') /\
    status r = SUCCESS /\
    data r = Some (PyDict [("echo", PyStr "hi")]).
Proof.
  destruct (echo_scenario sample_registry echo_spec (sample_context "guest") w0)
    as (r & w' & Hrun & Hst & Hdata & _);
    [reflexivity | reflexivity | reflexivity | reflexivity | reflexivity
     | split; [simpl; lia | vm_compute; reflexivity] |].
  exists r, w'. split; [exact Hrun | split; [exact Hst | exact Hdata]].
Defined.

(** C8, as the claim states it, fails: "fax" is registered with the
    unrecognized type "fax" and a guest is authorized for it, yet a call
    without its required parameter "number" ends in validation_error, a call
    with a deadline of 0 seconds ends in timeout, and a call with a deadline
    of [10**309] seconds ends in failure with the message of the
    [OverflowError], not with "not implemented". *)
Lemma unrecognized_type_without_failure :
  let inputs : gmap string pyvalue := {["number" := PyStr "555"]} in
  let run inputs seconds :=
    Full.execute_tool sample_registry "fax" inputs
      (with_max_execution_time seconds (sample_context "guest")) w0 in
  sample_registry !! "fax" = Some fax_spec /\
  check_permissions sample_registry "fax" (sample_context "guest") = true /\
  (run ∅ 30).1 =
    Full.Returns (error_result VALIDATION_ERROR "Missing required parameter: number" 0) /\
  (run inputs 0).1 =
    Full.Returns (error_result TIMEOUT "Tool execution timed out after 0s" 0) /\
  (run inputs (10 ^ 309)).1 =
    Full.Returns (error_result FAILURE "int too large to convert to float" 0).
Proof. vm_compute. repeat split; reflexivity. Qed.

(** C8, amended: for a registered, authorized tool whose declared type is
    none of web_search, asr, tts, echo, called with every required parameter
    present and a [max_execution_time] that is positive and small enough for
    a float (below [2**1024 - 2**970]), [execute_tool] returns a result with
    status failure whose message says that the type is not implemented. *)
Theorem unrecognized_type_is_failure (reg : gmap string ToolSpec) (tool_name : string)
    (tool_spec : ToolSpec) (inputs : gmap string pyvalue) (context : ToolContext)
    (w : World) :
  reg !! tool_name = Some tool_spec ->
  default "unknown" (spec_type tool_spec) ∉ ["web_search"; "asr"; "tts"; "echo"] ->
  check_permissions reg tool_name context = true ->
  Forall (fun q => is_Some (inputs !! q)) (default [] (spec_required_params tool_spec)) ->
  0 < max_execution_time context < float_int_limit ->
  exists r w',
    Full.execute_tool reg tool_name inputs context w = (Full.Returns r, w') /\
    status r = FAILURE /\
    error r = Some ("Tool type '" +:+ default "unknown" (spec_type tool_spec)
                      +:+ "' not implemented") /\
    data r = None.
Proof.
  intros Hreg Hty Hp Hall Hdeadline.
  pose proof (validate_tool_input_present _ _ _ _ Hreg Hall) as Hv.
  unfold Full.execute_tool.
  rewrite (full_execute_tool_dispatched _ reg tool_name inputs context w None Hv Hp).
  rewrite (_execute_tool_impl_unrecognized _ _ _ inputs context Hreg Hty).
  simpl Full.of_coroutine.
  rewrite (full_wait_for_throw _ _ _ Hdeadline). simpl.
  eexists _, _. split; [reflexivity |]. repeat split.
Qed.

Lemma unrecognized_type_is_failure_witness :
  exists r w',
    Full.execute_tool sample_registry "fax" {["number" := PyStr "555"]}
      (sample_context "user") w0 = (Full.Returns r, w') /\
    status r = FAILURE /\
    error r = Some "Tool type 'fax' not implemented".
Proof.
  destruct (unrecognized_type_is_failure sample_registry "fax" fax_spec
              {["number" := PyStr "555"]} (sample_context "user") w0)
    as (r & w' & Hrun & Hst & Herr & _).
  - reflexivity.
  - simpl. intros Hin.
    repeat (apply elem_of_cons in Hin as [Hin | Hin]; [discriminate |]).
    apply elem_of_nil in Hin. exact Hin.
  - reflexivity.
  - repeat constructor. vm_compute. eauto.
  - split; [simpl; lia | vm_compute; reflexivity].
  - exists r, w'. split; [exact Hrun | split; [exact Hst | exact Herr]].
Defined.

(** ** Deadlines *)

(** X8: with a deadline of zero or fewer seconds, a call that passes both
    checks never runs its tool.  It ends in timeout, with the deadline quoted
    in the message and no data, unless the deadline has more than 4300
    digits: then the message cannot be built and a [ValueError] leaves
    [execute_tool], the gauge decremented and nothing recorded. *)
Theorem nonpositive_deadline_times_out
    (impl : gmap string ToolSpec -> string -> gmap string pyvalue -> ToolContext -> Full.task)
    (reg : gmap string ToolSpec) (tool_name : string)
    (inputs : gmap string pyvalue) (context : ToolContext) (w : World) :
  validate_tool_input reg tool_name inputs = (true, None) ->
  check_permissions reg tool_name context = true ->
  max_execution_time context <= 0 ->
  let run := Full.execute_tool_with impl reg tool_name inputs context w in
  (- int_str_limit < max_execution_time context ->
     exists r,
       run.1 = Full.Returns r /\
       status r = TIMEOUT /\
       error r = Some (timeout_message context) /\
       data r = None) /\
  (max_execution_time context <= - int_str_limit ->
     run.1 = Full.Raises (Full.Exc int_str_error) /\
     count_events is_gauge_dec (new_events w run.2) = 1%nat /\
     count_events is_recording (new_events w run.2) = 0%nat).
Proof.
  intros Hv Hp Hdeadline run. unfold run.
  rewrite (full_execute_tool_dispatched impl reg tool_name inputs context w None Hv Hp).
  rewrite (full_wait_for_expired _ _ _ Hdeadline). simpl.
  destruct (Z.leb_spec int_str_limit (Z.abs (max_execution_time context))) as [Hbig | Hsmall].
  - split; [intros Hlt; lia |]. intros _. simpl. rewrite new_events_app.
    repeat split.
  - split; [| intros Hle; lia]. intros _. simpl.
    eexists. split; [reflexivity |]. repeat split.
Qed.

Lemma nonpositive_deadline_times_out_witness :
  exists r,
    (Full.execute_tool sample_registry "search" {["query" := PyStr "rocq"]}
       (with_max_execution_time (-1) (sample_context "user")) w0).1 = Full.Returns r /\
    status r = TIMEOUT /\
    error r = Some "Tool execution timed out after -1s".
Proof.
  destruct (nonpositive_deadline_times_out
              (fun reg tool_name inputs context =>
                 Full.of_coroutine (_execute_tool_impl reg tool_name inputs context))
              sample_registry "search" {["query" := PyStr "rocq"]}
              (with_max_execution_time (-1) (sample_context "user")) w0)
    as [Hsmall _];
    [vm_compute; reflexivity | vm_compute; reflexivity | simpl; lia |].
  destruct Hsmall as (r & Hrun & Hst & Herr & _); [vm_compute; reflexivity |].
  exists r. split; [exact Hrun | split; [exact Hst | exact Herr]].
Defined.

(** X9: the four tool types the module implements.  A registered tool of
    type web_search, asr, tts or echo, called by an authorized caller with
    every required parameter and a deadline of at least two seconds (the
    longest simulated tool sleeps one second) that a float can hold, ends in
    success with a dictionary as data and no error; for web_search the
    dictionary gives back the query, for echo the message. *)
Theorem implemented_types_succeed (reg : gmap string ToolSpec) (tool_name : string)
    (tool_spec : ToolSpec) (inputs : gmap string pyvalue) (context : ToolContext)
    (w : World) :
  reg !! tool_name = Some tool_spec ->
  default "unknown" (spec_type tool_spec) ∈ ["web_search"; "asr"; "tts"; "echo"] ->
  check_permissions reg tool_name context = true ->
  Forall (fun q => is_Some (inputs !! q)) (default [] (spec_required_params tool_spec)) ->
  2 <= max_execution_time context < float_int_limit ->
  exists r w' items,
    Full.execute_tool reg tool_name inputs context w = (Full.Returns r, w') /\
    status r = SUCCESS /\
    data r = Some (PyDict items) /\
    error r = None /\
    (spec_type tool_spec = Some "web_search" ->
       items !! 0%nat = Some ("query", default (PyStr "") (inputs !! "query"))) /\
    (spec_type tool_spec = Some "echo" ->
       items = [("echo", default (PyStr "Hello from Primarch!") (inputs !! "message"))]).
Proof.
  intros Hreg Hty Hp Hall [Hlow Hhigh].
  pose proof (validate_tool_input_present _ _ _ _ Hreg Hall) as Hv.
  unfold Full.execute_tool.
  rewrite (full_execute_tool_dispatched _ reg tool_name inputs context w None Hv Hp).
  unfold _execute_tool_impl. rewrite Hreg.
  repeat (apply elem_of_cons in Hty as [Hty | Hty]);
    [| | | | apply elem_of_nil in Hty; contradiction];
    rewrite Hty; simpl Full.of_coroutine.
  - rewrite full_wait_for_sleep_return by lia. simpl.
    eexists _, _, _. split; [reflexivity |]. simpl.
    repeat split; intros; try reflexivity.
    rewrite H in Hty. simpl in Hty. discriminate Hty.
  - rewrite full_wait_for_sleep_return by lia. simpl.
    eexists _, _, _. split; [reflexivity |]. simpl.
    repeat split; intros H; rewrite H in Hty; simpl in Hty; discriminate Hty.
  - rewrite full_wait_for_sleep_return by lia. simpl.
    eexists _, _, _. split; [reflexivity |]. simpl.
    repeat split; intros H; rewrite H in Hty; simpl in Hty; discriminate Hty.
  - rewrite full_wait_for_return by lia. simpl.
    eexists _, _, _. split; [reflexivity |]. simpl.
    repeat split; intros; try reflexivity.
    rewrite H in Hty. simpl in Hty. discriminate Hty.
Qed.

Lemma implemented_types_succeed_witness :
  exists r w',
    Full.execute_tool sample_registry "search" {["query" := PyStr "rocq"]}
      (sample_context "user") w0 = (Full.Returns r, w') /\
    status r = SUCCESS.
Proof.
  destruct (implemented_types_succeed sample_registry "search" search_spec
              {["query" := PyStr "rocq"]} (sample_context "user") w0)
    as (r & w' & items & Hrun & Hst & _).
  - reflexivity.
  - simpl. apply list_elem_of_here.
  - reflexivity.
  - repeat constructor. vm_compute. eauto.
  - split; [simpl; lia | vm_compute; reflexivity].
  - exists r, w'. split; [exact Hrun | exact Hst].
Defined.

(** X10: every [TimeoutError] that comes out of the awaited call is taken
    for the deadline (Python 3.11 and later, where [asyncio.TimeoutError] is
    the builtin [TimeoutError]): also when the tool itself raises it, at once
    and under a deadline that has not run out, the status is timeout and the
    message is the fixed deadline text, not the text of the exception. *)
Theorem timeout_error_of_the_tool_is_masked
    (impl : gmap string ToolSpec -> string -> gmap string pyvalue -> ToolContext -> Full.task)
    (reg : gmap string ToolSpec) (tool_name : string)
    (inputs : gmap string pyvalue) (context : ToolContext) (w : World) (e : exn) :
  validate_tool_input reg tool_name inputs = (true, None) ->
  check_permissions reg tool_name context = true ->
  impl reg tool_name inputs context = Full.Throw (Full.Exc e) ->
  exn_cls e = TimeoutError ->
  0 < max_execution_time context < float_int_limit ->
  exists r w',
    Full.execute_tool_with impl reg tool_name inputs context w = (Full.Returns r, w') /\
    status r = TIMEOUT /\
    error r = Some (timeout_message context) /\
    data r = None.
Proof.
  intros Hv Hp Himpl Hcls Hdeadline.
  pose proof float_limit_below_str_limit as Hlimits.
  rewrite (full_execute_tool_dispatched impl reg tool_name inputs context w None Hv Hp).
  rewrite Himpl, (full_wait_for_throw _ _ _ Hdeadline). simpl.
  destruct (decide (exn_cls e = TimeoutError)); [| contradiction].
  destruct (Z.leb_spec int_str_limit (Z.abs (max_execution_time context))); [lia |].
  simpl. destruct (decide (exn_cls e = TimeoutError)); [| contradiction].
  eexists _, _. split; [reflexivity |]. repeat split.
Qed.

Lemma timeout_error_of_the_tool_is_masked_witness :
  exists r w',
    Full.execute_tool_with
      (fun _ _ _ _ => Full.Throw (Full.Exc (mkExn TimeoutError "upstream read timed out")))
      sample_registry "echo" ∅ (sample_context "guest") w0 = (Full.Returns r, w') /\
    status r = TIMEOUT /\
    error r = Some "Tool execution timed out after 30s".
Proof.
  destruct (timeout_error_of_the_tool_is_masked
              (fun _ _ _ _ =>
                 Full.Throw (Full.Exc (mkExn TimeoutError "upstream read timed out")))
              sample_registry "echo" ∅ (sample_context "guest") w0
              (mkExn TimeoutError "upstream read timed out"))
    as (r & w' & Hrun & Hst & Herr & _);
    [vm_compute; reflexivity | vm_compute; reflexivity | reflexivity | reflexivity
     | split; [simpl; lia | vm_compute; reflexivity] |].
  exists r, w'. split; [exact Hrun | split; [exact Hst | exact Herr]].
Defined.

(** ** The failures of the module's own tools, with every exit *)

Lemma full_wait_for_simulated (c : coroutine) (timeout : Z) (w : World) :
  (exists v, c = CoReturn v) \/ (exists ms v, c = CoSleep ms (CoReturn v)) ->
  0 < timeout < float_int_limit ->
  (exists v, (Full.wait_for (Full.of_coroutine c) timeout w).1 = Full.Returns v) \/
  (Full.wait_for (Full.of_coroutine c) timeout w).1
    = Full.Raises (Full.Exc (mkExn TimeoutError "")).
Proof.
  intros Hc Ht. unfold Full.wait_for.
  destruct (Z.leb_spec timeout 0); [lia |].
  destruct (Z.leb_spec float_int_limit timeout); [lia |].
  destruct Hc as [[v ->] | (ms & v & ->)]; simpl.
  - left. eauto.
  - destruct (ms <? timeout * 1000); [left; eauto | right; reflexivity].
Qed.


(** ** The two pipelines

    For a deadline whose text and whose float exist, and a tool that raises
    exceptions deriving from [Exception] only, the pipeline with every exit
    does what [execute_tool_with] does. *)

Lemma full_run_until_of_coroutine (c : coroutine) :
  forall budget w,
    Full.run_until (Full.of_coroutine c) budget w = Full.lift (run_until c budget) w.
Proof.
  induction c as [v | e | ms k IH]; intros budget w; simpl; try reflexivity.
  destruct (ms <? budget);
    unfold Full.bind, Full.lift, bind, advance, Full.raise, raise; simpl.
  - rewrite IH. unfold Full.lift. reflexivity.
  - reflexivity.
Qed.

Lemma pipelines_agree
    (impl : gmap string ToolSpec -> string -> gmap string pyvalue -> ToolContext -> coroutine)
    (reg : gmap string ToolSpec) (tool_name : string)
    (inputs : gmap string pyvalue) (context : ToolContext) (w : World) :
  - int_str_limit < max_execution_time context < float_int_limit ->
  Full.execute_tool_with
    (fun reg tool_name inputs context =>
       Full.of_coroutine (impl reg tool_name inputs context))
    reg tool_name inputs context w =
  Full.lift (execute_tool_with impl reg tool_name inputs context) w.
Proof.
  intros [Hlow Hhigh].
  pose proof float_limit_below_str_limit as Hlimits.
  destruct (validate_tool_input_shape reg tool_name inputs) as [Hv | [msg Hv]].
  2:{ rewrite (full_execute_tool_invalid _ reg tool_name inputs context w _ Hv).
      unfold Full.lift.
      rewrite (execute_tool_invalid impl reg tool_name inputs context w _ Hv).
      reflexivity. }
  destruct (check_permissions reg tool_name context) eqn:Hp.
  2:{ rewrite (full_execute_tool_denied _ reg tool_name inputs context w _ Hv Hp).
      unfold Full.lift.
      rewrite (execute_tool_denied impl reg tool_name inputs context w _ Hv Hp).
      reflexivity. }
  rewrite (full_execute_tool_dispatched _ reg tool_name inputs context w None Hv Hp).
  unfold Full.lift.
  rewrite (execute_tool_dispatched impl reg tool_name inputs context w None Hv Hp).
  assert (Hwait :
    Full.wait_for (Full.of_coroutine (impl reg tool_name inputs context))
      (max_execution_time context) (at_dispatch tool_name context w) =
    Full.lift (wait_for (impl reg tool_name inputs context)
                 (max_execution_time context)) (at_dispatch tool_name context w)).
  { unfold Full.wait_for, wait_for.
    destruct (Z.leb_spec (max_execution_time context) 0); [reflexivity |].
    destruct (Z.leb_spec float_int_limit (max_execution_time context)); [lia |].
    apply full_run_until_of_coroutine. }
  rewrite Hwait. unfold Full.lift.
  destruct (wait_for (impl reg tool_name inputs context) (max_execution_time context)
              (at_dispatch tool_name context w)) as [[v | e] w2]; simpl.
  - reflexivity.
  - destruct (decide (exn_cls e = TimeoutError)); simpl; [| reflexivity].
    destruct (Z.leb_spec int_str_limit (Z.abs (max_execution_time context))); [lia |].
    simpl. destruct (decide (exn_cls e = TimeoutError)); [| contradiction].
    reflexivity.
Qed.

(** ** [repr] *)

Example py_repr_samples :
  py_repr "a" = "'a'" /\ py_repr "" = "''" /\
  py_repr "a\b" = "'a\\b'" /\
  py_repr (String "a" (String single_quote "b")) =
    String double_quote (String "a" (String single_quote (String "b"
      (String double_quote EmptyString)))) /\
  py_repr (String (ascii_of_nat 10) (String (ascii_of_nat 31) EmptyString)) = "'\n\x1f'".
Proof. vm_compute. repeat split; reflexivity. Qed.
